(** * TaskMaster: the task list view model (MVVM) and its task entity

    A shallow embedding of [TaskModel] (taskmaster_view.js, TaskModel.js part)
    and [TaskViewModel] (taskmaster_viewmodel.js), with [TaskView.formatTime]
    and [debug.addDemoData] (taskmaster_view.js, TaskView.js and app.js
    parts).

    The program is JavaScript: task fields hold arbitrary values, methods
    mutate [this] and the browser (localStorage, the clock), and exceptions
    are caught by [try]/[catch].  The embedding keeps all three: values are
    the dynamically typed [JsVal], methods run in a state-and-exception monad
    [JS], and the browser is the record [World] together with the built-ins
    of the engine (class [Engine]).  Of the console output only the
    conversion of the printed value to a string is modelled, which can
    throw; reading localStorage is taken not to throw. *)

From Stdlib Require Import ZArith List Lia Bool Ascii String.
From stdpp Require Import base option list gmap.
Import ListNotations.

Local Open Scope Z_scope.

(** ** Strings

    A JavaScript string is a sequence of UTF-16 code units. *)

Abbreviation jsstring := (list N).

(** The code units of an ASCII literal. *)
Definition js (s : string) : jsstring := map N_of_ascii (list_ascii_of_string s).

(** WhiteSpace and LineTerminator of ECMAScript, the code points that
    [String.prototype.trim] strips (all of them lie in the basic plane). *)
Definition is_ws (c : N) : bool :=
  ((c =? 0x09) || (c =? 0x0A) || (c =? 0x0B) || (c =? 0x0C) || (c =? 0x0D)
   || (c =? 0x20) || (c =? 0xA0) || (c =? 0x1680)
   || ((0x2000 <=? c) && (c <=? 0x200A))
   || (c =? 0x2028) || (c =? 0x2029) || (c =? 0x202F) || (c =? 0x205F)
   || (c =? 0x3000) || (c =? 0xFEFF))%N.

Fixpoint trimStart (s : jsstring) : jsstring :=
  match s with
  | c :: s' => if is_ws c then trimStart s' else s
  | [] => []
  end.

Definition trimEnd (s : jsstring) : jsstring := rev (trimStart (rev s)).

(** [String.prototype.trim] *)
Definition trim (s : jsstring) : jsstring := trimEnd (trimStart s).

(** ** Values *)

(** Numbers.  The program never computes with numbers: it compares them,
    prints them and turns them into dates.  They are kept as exact decimals
    [m * 10^e] (what a JSON literal or a clock reading denotes); rounding to
    binary64 and the infinities are outside the model. *)
Inductive JsNum : Type :=
| NaN
| Dec (m e : Z).

#[local] Unset Elimination Schemes.
Inductive JsVal : Type :=
| VUndef
| VNull
| VBool (b : bool)
| VNum (n : JsNum)
| VStr (s : jsstring)
| VDate (tv : option Z)          (* a Date object; [None] is the time value NaN *)
| VArr (elems : list JsVal)
| VObj (props : list (jsstring * JsVal)).
#[local] Set Elimination Schemes.

Inductive Error : Type :=
| TypeError
| RangeError
| SyntaxError
| QuotaExceededError.

Definition num_of_Z (z : Z) : JsVal := VNum (Dec z 0).

Definition num_eqb (a b : JsNum) : bool :=
  match a, b with
  | Dec m1 e1, Dec m2 e2 =>
      let e := Z.min e1 e2 in
      m1 * 10 ^ (e1 - e) =? m2 * 10 ^ (e2 - e)
  | _, _ => false
  end.

Definition str_eqb (a b : jsstring) : bool := bool_decide (a = b).

(** ToBoolean *)
Definition truthy (v : JsVal) : bool :=
  match v with
  | VUndef | VNull => false
  | VBool b => b
  | VNum NaN => false
  | VNum (Dec m _) => negb (m =? 0)
  | VStr s => negb (str_eqb s [])
  | VDate _ | VArr _ | VObj _ => true
  end.

(** [a === b].  Objects are equal only to themselves; the embedding carries
    no references, so two object operands compare unequal: an object given
    to a method is taken to be another object than any that a task holds
    (ids are numbers by the program's own contract). *)
Definition strict_eq (a b : JsVal) : bool :=
  match a, b with
  | VUndef, VUndef => true
  | VNull, VNull => true
  | VBool x, VBool y => eqb x y
  | VNum x, VNum y => num_eqb x y
  | VStr x, VStr y => str_eqb x y
  | _, _ => false
  end.

(** [null] or [undefined]: the values without properties *)
Definition nullish (v : JsVal) : bool :=
  match v with
  | VUndef | VNull => true
  | _ => false
  end.

Fixpoint lookup_last (k : jsstring) (props : list (jsstring * JsVal)) (found : JsVal) : JsVal :=
  match props with
  | [] => found
  | (k', v) :: rest => lookup_last k rest (if str_eqb k' k then v else found)
  end.

(** [v.k] for the keys this program reads ([id], [text], [completed],
    [createdAt]), none of which the built-in prototypes define.  Reading a
    property of [null] or [undefined] is a TypeError; a key written twice in
    a JSON object keeps its last value. *)
Definition get_field (v : JsVal) (k : jsstring) : Error + JsVal :=
  if nullish v then inl TypeError
  else match v with
       | VObj props => inr (lookup_last k props VUndef)
       | _ => inr VUndef
       end.

(** Whether the conversion of [v] to a primitive value (ToPrimitive, and
    with it ToString) throws.  The objects of the model are plain data: the
    objects and arrays that [JSON.parse] creates and [toJSON] returns, whose
    properties hold values of the model and never a function.  On such an
    object the conversion calls the inherited [toString] and [valueOf]; an
    own property of one of these names hides the inherited method and,
    holding no function, is passed over; the inherited [valueOf] gives the
    object back.  So the conversion ends in ["[object Object]"] where no
    own property is called [toString], and in a TypeError where one is,
    under the hint string and under the hint number alike.  An array is joined: its elements other
    than [null] and [undefined] are converted to strings in turn.  Primitive
    values and Dates convert without an error. *)
Fixpoint ToPrimitive_throws (v : JsVal) : bool :=
  match v with
  | VObj props => existsb (fun p => str_eqb (fst p) (js "toString")) props
  | VArr elems => existsb ToPrimitive_throws elems
  | _ => false
  end.

(** ** Dates

    A time value counts the milliseconds since the epoch, in UTC.  The
    functions are ECMAScript's (Time Values and Time Range, Date Time String
    Format), over [Z] with floor division. *)

Definition msPerDay : Z := 86400000.
Definition msPerHour : Z := 3600000.
Definition msPerMinute : Z := 60000.
Definition msPerSecond : Z := 1000.

Definition Day (t : Z) : Z := t / msPerDay.
Definition TimeWithinDay (t : Z) : Z := t mod msPerDay.

Definition DaysInYear (y : Z) : Z :=
  if negb (y mod 4 =? 0) then 365
  else if negb (y mod 100 =? 0) then 366
  else if negb (y mod 400 =? 0) then 365
  else 366.

Definition DayFromYear (y : Z) : Z :=
  365 * (y - 1970) + (y - 1969) / 4 - (y - 1901) / 100 + (y - 1601) / 400.

(** The year of day [d]: the largest [y] with [DayFromYear y <= d]
    (lemma [YearFromDay_spec]), found from an estimate that is off by one
    at most. *)
Definition YearFromDay (d : Z) : Z :=
  let y := 1970 + (d * 400) / 146097 in
  if d <? DayFromYear y then y - 1
  else if DayFromYear (y + 1) <=? d then y + 1
  else y.

Definition YearFromTime (t : Z) : Z := YearFromDay (Day t).
Definition InLeapYear (y : Z) : Z := if DaysInYear y =? 366 then 1 else 0.
Definition DayWithinYear (t : Z) : Z := Day t - DayFromYear (YearFromTime t).

(** The day of the year on which month [m] (0 to 11) starts; [12] gives
    the length of the year. *)
Definition month_start (leap m : Z) : Z :=
  match m with
  | 0 => 0 | 1 => 31 | 2 => 59 + leap | 3 => 90 + leap | 4 => 120 + leap
  | 5 => 151 + leap | 6 => 181 + leap | 7 => 212 + leap | 8 => 243 + leap
  | 9 => 273 + leap | 10 => 304 + leap | 11 => 334 + leap | _ => 365 + leap
  end.

Definition month_of_day (leap d : Z) : Z :=
  if d <? 31 then 0 else if d <? 59 + leap then 1 else if d <? 90 + leap then 2
  else if d <? 120 + leap then 3 else if d <? 151 + leap then 4
  else if d <? 181 + leap then 5 else if d <? 212 + leap then 6
  else if d <? 243 + leap then 7 else if d <? 273 + leap then 8
  else if d <? 304 + leap then 9 else if d <? 334 + leap then 10 else 11.

Definition MonthFromTime (t : Z) : Z :=
  month_of_day (InLeapYear (YearFromTime t)) (DayWithinYear t).
Definition DateFromTime (t : Z) : Z :=
  DayWithinYear t - month_start (InLeapYear (YearFromTime t)) (MonthFromTime t) + 1.
Definition HourFromTime (t : Z) : Z := (t / msPerHour) mod 24.
Definition MinFromTime (t : Z) : Z := (t / msPerMinute) mod 60.
Definition SecFromTime (t : Z) : Z := (t / msPerSecond) mod 60.
Definition msFromTime (t : Z) : Z := t mod msPerSecond.

Definition MakeTime (h m s ms : Z) : Z :=
  h * msPerHour + m * msPerMinute + s * msPerSecond + ms.
Definition MakeDay (year month date : Z) : Z :=
  DayFromYear year + month_start (InLeapYear year) month + date - 1.
Definition MakeDate (day time : Z) : Z := day * msPerDay + time.

(** A time value is valid within 100,000,000 days of the epoch. *)
Definition maxTime : Z := 8640000000000000.
Definition TimeClip (t : Z) : option Z :=
  if Z.abs t <=? maxTime then Some t else None.

(** [k] in [n] decimal digits *)
Fixpoint digits (n : nat) (k : Z) : jsstring :=
  match n with
  | O => []
  | S n' => digits n' (k / 10) ++ [(48 + Z.to_N (k mod 10))%N]
  end.

(** Four digits for the years 0 to 9999, a sign and six digits otherwise. *)
Definition year_string (y : Z) : jsstring :=
  if (0 <=? y) && (y <=? 9999) then digits 4 y
  else (if y <? 0 then js "-" else js "+") ++ digits 6 (Z.abs y).

(** [YYYY-MM-DDTHH:mm:ss.sssZ], what [toISOString] prints *)
Definition iso_string (t : Z) : jsstring :=
  year_string (YearFromTime t) ++ js "-" ++ digits 2 (MonthFromTime t + 1) ++ js "-"
  ++ digits 2 (DateFromTime t) ++ js "T" ++ digits 2 (HourFromTime t) ++ js ":"
  ++ digits 2 (MinFromTime t) ++ js ":" ++ digits 2 (SecFromTime t) ++ js "."
  ++ digits 3 (msFromTime t) ++ js "Z".

Definition is_digit (c : N) : bool := ((48 <=? c) && (c <=? 57))%N.

Fixpoint read_digits (n : nat) (acc : Z) (s : jsstring) : option (Z * jsstring) :=
  match n with
  | O => Some (acc, s)
  | S n' =>
      match s with
      | c :: s' => if is_digit c then read_digits n' (10 * acc + (Z.of_N c - 48)) s' else None
      | [] => None
      end
  end.

Definition expect (c : string) (s : jsstring) : option jsstring :=
  match js c, s with
  | [c'], x :: s' => if (x =? c')%N then Some s' else None
  | _, _ => None
  end.

(** [-000000] is no year. *)
Definition read_year (s : jsstring) : option (Z * jsstring) :=
  match s with
  | c :: s' =>
      if (c =? 43)%N then read_digits 6 0 s'
      else if (c =? 45)%N then
        '(y, r) ← read_digits 6 0 s';
        if y =? 0 then None else Some (- y, r)
      else read_digits 4 0 s
  | [] => None
  end.

(** [Date.parse] on the full interchange format with legal fields, the
    strings whose time value ECMAScript fixes; [None] for any other
    string. *)
Definition parse_iso (s : jsstring) : option Z :=
  '(y, s) ← read_year s;
  s ← expect "-" s;
  '(mo, s) ← read_digits 2 0 s;
  s ← expect "-" s;
  '(d, s) ← read_digits 2 0 s;
  s ← expect "T" s;
  '(h, s) ← read_digits 2 0 s;
  s ← expect ":" s;
  '(mi, s) ← read_digits 2 0 s;
  s ← expect ":" s;
  '(sec, s) ← read_digits 2 0 s;
  s ← expect "." s;
  '(ms, s) ← read_digits 3 0 s;
  s ← expect "Z" s;
  match s with
  | [] =>
      let leap := InLeapYear y in
      if (1 <=? mo) && (mo <=? 12) && (1 <=? d)
         && (d <=? month_start leap mo - month_start leap (mo - 1))
         && (h <=? 23) && (mi <=? 59) && (sec <=? 59)
      then TimeClip (MakeDate (MakeDay y (mo - 1) d) (MakeTime h mi sec ms))
      else None
  | _ => None
  end.

(** ** The browser

    [Engine]: the built-ins the program calls whose results the source does
    not fix.  [JSON_parse] is [None] where [JSON.parse] throws a SyntaxError.
    [Date_parse_other] is the time value the engine gives [new Date(v)] when
    [v] is an object, or a string outside the full interchange format
    [YYYY-MM-DDTHH:mm:ss.sssZ] (ECMAScript leaves other strings to the
    implementation); [None] is NaN. *)
Class Engine : Type := {
  JSON_parse : jsstring -> option JsVal;
  JSON_stringify : JsVal -> jsstring;
  Date_parse_other : JsVal -> option Z
}.

(** [World]: what persists outside the view model.  [quota] bounds the
    total size of localStorage, [setItem_calls] counts the write attempts,
    and the [n]-th reading of the clock is [clock n]. *)
Record World : Type := {
  localStorage : gmap jsstring jsstring;
  quota : N;
  setItem_calls : nat;
  clock : nat -> Z;
  clock_reads : nat
}.

(** ** Statements: state and exceptions *)

Inductive Completion (A : Type) : Type :=
| Normal (a : A)
| Throw (e : Error).
Arguments Normal {A} a.
Arguments Throw {A} e.

Definition JS (S A : Type) : Type := S -> Completion A * S.

#[export] Instance JS_ret {S} : MRet (JS S) :=
  fun A a s => (Normal a, s).

#[export] Instance JS_bind {S} : MBind (JS S) :=
  fun A B k m s =>
    match m s with
    | (Normal a, s') => k a s'
    | (Throw e, s') => (Throw e, s')
    end.

Definition throw {S A} (e : Error) : JS S A := fun s => (Throw e, s).

(** [try { body } catch (error) { handler }] *)
Definition try_catch {S A} (body : JS S A) (handler : Error -> JS S A) : JS S A :=
  fun s =>
    match body s with
    | (Normal a, s') => (Normal a, s')
    | (Throw e, s') => handler e s'
    end.

(** An expression that either throws or has a value. *)
Definition eval {S A} (r : Error + A) : JS S A :=
  match r with
  | inl e => throw e
  | inr a => mret a
  end.

(** [array.map(f)] on an array of the model *)
Fixpoint js_mapM {S A B} (f : A -> JS S B) (l : list A) : JS S (list B) :=
  match l with
  | [] => mret []
  | x :: l' => y ← f x; ys ← js_mapM f l'; mret (y :: ys)
  end.

(** [v.map(f)]: a TypeError unless [v] is an array ([null.map] and calling
    a property that is not a function both throw it). *)
Definition Array_map {S B} (v : JsVal) (f : JsVal -> JS S B) : JS S (list B) :=
  match v with
  | VArr elems => js_mapM f elems
  | _ => throw TypeError
  end.

(** [Date.now()] *)
Definition Date_now : JS World Z :=
  fun w =>
    (Normal (clock w (clock_reads w)),
     {| localStorage := localStorage w; quota := quota w;
        setItem_calls := setItem_calls w;
        clock := clock w; clock_reads := S (clock_reads w) |}).

(** [new Date()] *)
Definition Date_new : JS World JsVal :=
  now ← Date_now; mret (VDate (TimeClip now)).

(** ToIntegerOrInfinity of a number *)
Definition to_integer (n : JsNum) : option Z :=
  match n with
  | NaN => None
  | Dec m e => Some (if 0 <=? e then m * 10 ^ e else Z.quot m (10 ^ (- e)))
  end.

(** The time value of [new Date(v)], once [v] is converted to a primitive
    value (what the conversion of an object or array gives is read by the
    engine) *)
Definition time_value `{Engine} (v : JsVal) : option Z :=
  match v with
  | VDate tv => tv
  | VUndef => None
  | VNull => TimeClip 0
  | VBool b => TimeClip (if b then 1 else 0)
  | VNum n => to_integer n ≫= TimeClip
  | VStr s =>
      match parse_iso s with
      | Some t => Some t
      | None => Date_parse_other v ≫= TimeClip
      end
  | VArr _ | VObj _ => Date_parse_other v ≫= TimeClip
  end.

(** [new Date(v)]: the conversion of [v] to a primitive value comes first,
    and its TypeError is the constructor's. *)
Definition Date_of `{Engine} (v : JsVal) : Error + JsVal :=
  if ToPrimitive_throws v then inl TypeError else inr (VDate (time_value v)).

(** [console.log] and [console.warn] of a template literal that holds [v]:
    what is printed is not modelled, the TypeError of converting [v] to a
    string is. *)
Definition console_log {S} (v : JsVal) : JS S unit :=
  if ToPrimitive_throws v then throw TypeError else mret tt.

(** [d.toISOString()]: a RangeError on an invalid date; a value that is no
    Date has no such method. *)
Definition toISOString (d : JsVal) : Error + JsVal :=
  match d with
  | VDate (Some t) => inr (VStr (iso_string t))
  | VDate None => inl RangeError
  | _ => inl TypeError
  end.

Definition storage_size (m : gmap jsstring jsstring) : nat :=
  map_fold (fun k v n => (n + length k + length v)%nat) 0%nat m.

(** [localStorage.getItem(k)]: [None] is [null]. *)
Definition getItem (k : jsstring) : JS World (option jsstring) :=
  fun w => (Normal (localStorage w !! k), w).

(** [localStorage.setItem(k, v)]: throws when the item does not fit. *)
Definition setItem (k v : jsstring) : JS World unit :=
  fun w =>
    let m := <[k := v]> (localStorage w) in
    let fits := (N.of_nat (storage_size m) <=? quota w)%N in
    (if fits then Normal tt else Throw QuotaExceededError,
     {| localStorage := if fits then m else localStorage w; quota := quota w;
        setItem_calls := S (setItem_calls w);
        clock := clock w; clock_reads := clock_reads w |}).

(** [JSON.parse(s)] *)
Definition JSON_parse_js `{Engine} {S} (s : jsstring) : JS S JsVal :=
  match JSON_parse s with
  | Some v => mret v
  | None => throw SyntaxError
  end.

(** ** TaskModel (TaskModel.js) *)

Module TaskModel.

Record t : Type := {
  id : JsVal;
  text : JsVal;
  completed : JsVal;
  createdAt : JsVal
}.

(** [constructor(id, text, completed = false, createdAt = new Date())]:
    a default is taken where the argument is [undefined]. *)
Definition new (id text completed createdAt : JsVal) : JS World t :=
  let completed :=
    match completed with VUndef => VBool false | _ => completed end in
  createdAt ← match createdAt with VUndef => Date_new | _ => mret createdAt end;
  mret {| id := id; text := text; completed := completed; createdAt := createdAt |}.

Definition toJSON (this : t) : JS World JsVal :=
  iso ← eval (toISOString (createdAt this));
  mret (VObj [(js "id", id this); (js "text", text this);
              (js "completed", completed this); (js "createdAt", iso)]).

Definition fromJSON `{Engine} (json : JsVal) : JS World t :=
  i ← eval (get_field json (js "id"));
  tx ← eval (get_field json (js "text"));
  c ← eval (get_field json (js "completed"));
  ca ← eval (get_field json (js "createdAt"));
  date ← eval (Date_of ca);
  new i tx c date.

End TaskModel.

(** ** TaskViewModel (TaskViewModel.js) *)

Module TaskViewModel.

Record t : Type := {
  tasks : list TaskModel.t;
  currentFilter : JsVal
}.

(** A running view model: the object and the browser around it. *)
Record State : Type := {
  this : t;
  world : World
}.

Record Stats : Type := {
  total : nat;
  completed : nat;
  active : nat
}.

Definition in_world {A} (m : JS World A) : JS State A :=
  fun s => let '(r, w) := m (world s) in (r, {| this := this s; world := w |}).

Definition get_tasks : JS State (list TaskModel.t) :=
  fun s => (Normal (tasks (this s)), s).

Definition set_tasks (ts : list TaskModel.t) : JS State unit :=
  fun s =>
    (Normal tt,
     {| this := {| tasks := ts; currentFilter := currentFilter (this s) |};
        world := world s |}).

Definition get_currentFilter : JS State JsVal :=
  fun s => (Normal (currentFilter (this s)), s).

Definition set_currentFilter (f : JsVal) : JS State unit :=
  fun s =>
    (Normal tt,
     {| this := {| tasks := tasks (this s); currentFilter := f |};
        world := world s |}).

Definition loadTasks `{Engine} : JS State unit :=
  try_catch
    (stored ← in_world (getItem (js "tasks"));
     match stored with
     | Some s =>
         if truthy (VStr s) then
           parsed ← JSON_parse_js s;
           ts ← in_world (Array_map parsed TaskModel.fromJSON);
           set_tasks ts
         else mret tt
     | None => mret tt
     end)
    (fun error => set_tasks []).

Definition saveTasks `{Engine} : JS State unit :=
  try_catch
    (ts ← get_tasks;
     json ← in_world (js_mapM TaskModel.toJSON ts);
     in_world (setItem (js "tasks") (JSON_stringify (VArr json))))
    (fun error => mret tt).

Definition addTask `{Engine} (text : jsstring) : JS State bool :=
  if negb (truthy (VStr text)) || negb (truthy (VStr (trim text))) then
    mret false
  else
    now ← in_world Date_now;
    task ← in_world (TaskModel.new (num_of_Z now) (VStr (trim text)) VUndef VUndef);
    ts ← get_tasks;
    set_tasks (task :: ts);;
    saveTasks;;
    mret true.

Definition has_id (id : JsVal) (t : TaskModel.t) : bool :=
  strict_eq (TaskModel.id t) id.

Definition toggled (task : TaskModel.t) : TaskModel.t :=
  {| TaskModel.id := TaskModel.id task;
     TaskModel.text := TaskModel.text task;
     TaskModel.completed := VBool (negb (truthy (TaskModel.completed task)));
     TaskModel.createdAt := TaskModel.createdAt task |}.

(** [find] yields the first task with the id, an object of the array: the
    assignment to its [completed] changes the array's element in place. *)
Definition toggleTask `{Engine} (id : JsVal) : JS State bool :=
  ts ← get_tasks;
  match list_find (fun t => Is_true (has_id id t)) ts with
  | Some (i, task) =>
      set_tasks (<[i := toggled task]> ts);;
      saveTasks;;
      console_log id;;
      mret true
  | None =>
      console_log id;;
      mret false
  end.

Definition deleteTask `{Engine} (id : JsVal) : JS State unit :=
  ts ← get_tasks;
  let beforeLength := length ts in
  set_tasks (List.filter (fun t => negb (has_id id t)) ts);;
  ts' ← get_tasks;
  if (length ts' <? beforeLength)%nat then saveTasks;; console_log id
  else console_log id.

Definition getFilteredTasks : JS State (list TaskModel.t) :=
  f ← get_currentFilter;
  ts ← get_tasks;
  if strict_eq f (VStr (js "active")) then
    mret (List.filter (fun t => negb (truthy (TaskModel.completed t))) ts)
  else if strict_eq f (VStr (js "completed")) then
    mret (List.filter (fun t => truthy (TaskModel.completed t)) ts)
  else
    mret ts.

Definition setFilter (filter : JsVal) : JS State unit :=
  set_currentFilter filter;;
  console_log filter.

Definition getStats : JS State Stats :=
  ts ← get_tasks;
  mret {| total := length ts;
          completed := length (List.filter (fun t => truthy (TaskModel.completed t)) ts);
          active := length (List.filter (fun t => negb (truthy (TaskModel.completed t))) ts) |}.

Definition clearAllTasks `{Engine} : JS State unit :=
  set_tasks [];;
  saveTasks.

(** [new TaskViewModel()] in the browser [w] *)
Definition new `{Engine} (w : World) : Completion unit * State :=
  loadTasks {| this := {| tasks := []; currentFilter := VStr (js "all") |}; world := w |}.

End TaskViewModel.

(** ** A reference engine

    One engine, to run the model on concrete inputs: [JSON.parse] and
    [JSON.stringify] as ECMAScript defines them over the values of the
    model, and no date format beyond the interchange format.  Two things
    it does not do as an engine does: a number literal is kept as the exact
    decimal it is written as, where [JSON.parse] rounds to binary64 (the
    two agree on literals of at most 15 significant digits within the range
    of binary64), and the properties of an object are kept in the order
    they are written in, where an engine lists integer keys first.  The
    inputs it is run on below have neither long numbers nor integer keys,
    and no theorem over every [Engine] depends on it. *)

Module Reference.

Definition is_json_ws (c : N) : bool :=
  ((c =? 0x09) || (c =? 0x0A) || (c =? 0x0D) || (c =? 0x20))%N.

Fixpoint skip_ws (s : jsstring) : jsstring :=
  match s with
  | c :: s' => if is_json_ws c then skip_ws s' else s
  | [] => []
  end.

Definition hex_value (c : N) : option N :=
  (if (48 <=? c) && (c <=? 57) then Some (c - 48)
   else if (65 <=? c) && (c <=? 70) then Some (c - 55)
   else if (97 <=? c) && (c <=? 102) then Some (c - 87)
   else None)%N.

(** The characters of a string literal after its opening quote. *)
Fixpoint parse_chars (s : jsstring) (acc : jsstring) : option (jsstring * jsstring) :=
  match s with
  | [] => None
  | c :: s' =>
      if (c =? 0x22)%N then Some (rev acc, s')
      else if (c <? 0x20)%N then None
      else if (c =? 0x5C)%N then
        match s' with
        | e :: s'' =>
            if (e =? 0x22)%N then parse_chars s'' (0x22%N :: acc)
            else if (e =? 0x5C)%N then parse_chars s'' (0x5C%N :: acc)
            else if (e =? 0x2F)%N then parse_chars s'' (0x2F%N :: acc)
            else if (e =? 0x62)%N then parse_chars s'' (0x08%N :: acc)
            else if (e =? 0x66)%N then parse_chars s'' (0x0C%N :: acc)
            else if (e =? 0x6E)%N then parse_chars s'' (0x0A%N :: acc)
            else if (e =? 0x72)%N then parse_chars s'' (0x0D%N :: acc)
            else if (e =? 0x74)%N then parse_chars s'' (0x09%N :: acc)
            else if (e =? 0x75)%N then
              match s'' with
              | h1 :: h2 :: h3 :: h4 :: s3 =>
                  match hex_value h1, hex_value h2, hex_value h3, hex_value h4 with
                  | Some a, Some b, Some c', Some d =>
                      parse_chars s3 ((((a * 16 + b) * 16 + c') * 16 + d)%N :: acc)
                  | _, _, _, _ => None
                  end
              | _ => None
              end
            else None
        | [] => None
        end
      else parse_chars s' (c :: acc)
  end.

Fixpoint read_nat (s : jsstring) (acc : Z) (n : Z) : Z * Z * jsstring :=
  match s with
  | c :: s' => if is_digit c then read_nat s' (10 * acc + (Z.of_N c - 48)) (n + 1) else (acc, n, s)
  | [] => (acc, n, s)
  end.

(** number = [-] int [frac] [exp] *)
Definition parse_number (s : jsstring) : option (JsNum * jsstring) :=
  let '(neg, s) := match s with
                   | c :: s' => if (c =? 0x2D)%N then (true, s') else (false, s)
                   | [] => (false, s)
                   end in
  '(int, s) ← match s with
              | c :: s' =>
                  if (c =? 0x30)%N then Some (0, s')
                  else if is_digit c then let '(v, _, r) := read_nat s 0 0 in Some (v, r)
                  else None
              | [] => None
              end;
  '(m, e, s) ← match s with
               | c :: s' =>
                   if (c =? 0x2E)%N then
                     let '(v, n, r) := read_nat s' int 0 in
                     if n =? 0 then None else Some (v, - n, r)
                   else Some (int, 0, s)
               | [] => Some (int, 0, s)
               end;
  '(e, s) ← match s with
            | c :: s' =>
                if (c =? 0x65)%N || (c =? 0x45)%N then
                  let '(eneg, s'') := match s' with
                                      | d :: r => if (d =? 0x2D)%N then (true, r)
                                                  else if (d =? 0x2B)%N then (false, r)
                                                  else (false, s')
                                      | [] => (false, s')
                                      end in
                  let '(v, n, r) := read_nat s'' 0 0 in
                  if n =? 0 then None else Some (e + (if eneg then - v else v), r)
                else Some (e, s)
            | [] => Some (e, s)
            end;
  Some (Dec (if neg then - m else m) e, s).

Fixpoint strip_prefix (p s : jsstring) : option jsstring :=
  match p, s with
  | [], _ => Some s
  | a :: p', b :: s' => if (a =? b)%N then strip_prefix p' s' else None
  | _ :: _, [] => None
  end.

(** A key written again keeps its place and takes the new value. *)
Fixpoint set_prop (k : jsstring) (v : JsVal) (props : list (jsstring * JsVal)) :
  list (jsstring * JsVal) :=
  match props with
  | [] => [(k, v)]
  | (k', v') :: rest => if str_eqb k' k then (k', v) :: rest else (k', v') :: set_prop k v rest
  end.

Fixpoint parse_value (fuel : nat) (s : jsstring) : option (JsVal * jsstring) :=
  match fuel with
  | O => None
  | S fuel =>
      match skip_ws s with
      | [] => None
      | c :: r =>
          if (c =? 0x7B)%N then
            match skip_ws r with
            | 0x7D%N :: r' => Some (VObj [], r')
            | _ => parse_members fuel [] r
            end
          else if (c =? 0x5B)%N then
            match skip_ws r with
            | 0x5D%N :: r' => Some (VArr [], r')
            | _ => parse_elements fuel [] r
            end
          else if (c =? 0x22)%N then
            '(str, r') ← parse_chars r []; Some (VStr str, r')
          else if (c =? 0x74)%N then r' ← strip_prefix (js "rue") r; Some (VBool true, r')
          else if (c =? 0x66)%N then r' ← strip_prefix (js "alse") r; Some (VBool false, r')
          else if (c =? 0x6E)%N then r' ← strip_prefix (js "ull") r; Some (VNull, r')
          else '(n, r') ← parse_number (c :: r); Some (VNum n, r')
      end
  end
with parse_elements (fuel : nat) (acc : list JsVal) (s : jsstring) : option (JsVal * jsstring) :=
  match fuel with
  | O => None
  | S fuel =>
      '(v, r) ← parse_value fuel s;
      match skip_ws r with
      | c :: r' =>
          if (c =? 0x2C)%N then parse_elements fuel (v :: acc) r'
          else if (c =? 0x5D)%N then Some (VArr (rev (v :: acc)), r')
          else None
      | [] => None
      end
  end
with parse_members (fuel : nat) (acc : list (jsstring * JsVal)) (s : jsstring) :
  option (JsVal * jsstring) :=
  match fuel with
  | O => None
  | S fuel =>
      match skip_ws s with
      | c :: r =>
          if (c =? 0x22)%N then
            '(k, r) ← parse_chars r [];
            match skip_ws r with
            | c' :: r =>
                if (c' =? 0x3A)%N then
                  '(v, r) ← parse_value fuel r;
                  match skip_ws r with
                  | c'' :: r' =>
                      if (c'' =? 0x2C)%N then parse_members fuel (set_prop k v acc) r'
                      else if (c'' =? 0x7D)%N then Some (VObj (set_prop k v acc), r')
                      else None
                  | [] => None
                  end
                else None
            | [] => None
            end
          else None
      | [] => None
      end
  end.

(** [JSON.parse]: one value, with nothing but whitespace around it.  The
    fuel bounds the depth of the calls; each call follows a consumed
    character or is followed by one, so twice the length is enough. *)
Definition parse (s : jsstring) : option JsVal :=
  '(v, r) ← parse_value (2 * length s + 2) s;
  match skip_ws r with
  | [] => Some v
  | _ => None
  end.


Definition hex_digit (n : N) : N := (if n <? 10 then 48 + n else 87 + n)%N.

Definition unicode_escape (c : N) : jsstring :=
  js "\u" ++ [hex_digit (c / 4096 mod 16); hex_digit (c / 256 mod 16);
              hex_digit (c / 16 mod 16); hex_digit (c mod 16)]%N.

Definition is_lead (c : N) : bool := ((0xD800 <=? c) && (c <=? 0xDBFF))%N.
Definition is_trail (c : N) : bool := ((0xDC00 <=? c) && (c <=? 0xDFFF))%N.

(** QuoteJSONString, without the quotes: lone surrogates are escaped. *)
Fixpoint quote_chars (s : jsstring) : jsstring :=
  match s with
  | [] => []
  | c :: s' =>
      if (c =? 0x08)%N then js "\b" ++ quote_chars s'
      else if (c =? 0x09)%N then js "\t" ++ quote_chars s'
      else if (c =? 0x0A)%N then js "\n" ++ quote_chars s'
      else if (c =? 0x0C)%N then js "\f" ++ quote_chars s'
      else if (c =? 0x0D)%N then js "\r" ++ quote_chars s'
      else if (c =? 0x22)%N then [0x5C; 0x22]%N ++ quote_chars s'
      else if (c =? 0x5C)%N then [0x5C; 0x5C]%N ++ quote_chars s'
      else if (c <? 0x20)%N then unicode_escape c ++ quote_chars s'
      else if is_lead c then
        match s' with
        | d :: s'' => if is_trail d then c :: d :: quote_chars s''
                      else unicode_escape c ++ quote_chars s'
        | [] => unicode_escape c
        end
      else if is_trail c then unicode_escape c ++ quote_chars s'
      else c :: quote_chars s'
  end.

Definition quote (s : jsstring) : jsstring := [0x22%N] ++ quote_chars s ++ [0x22%N].

(** The decimal digits of [z >= 0], most significant first. *)
Fixpoint decimal (fuel : nat) (z : Z) (acc : jsstring) : jsstring :=
  match fuel with
  | O => acc
  | S fuel =>
      let acc := ((48 + Z.to_N (z mod 10))%N :: acc) in
      if z <? 10 then acc else decimal fuel (z / 10) acc
  end.

Definition decimal_of (z : Z) : jsstring := decimal (S (Z.to_nat (Z.log2 z))) z [].

Fixpoint drop_zeros (rev_digits : jsstring) (e : Z) : jsstring * Z :=
  match rev_digits with
  | c :: r => if (c =? 48)%N then drop_zeros r (e + 1) else (rev rev_digits, e)
  | [] => ([], e)
  end.

(** Number::toString, radix 10 *)
Definition number_string (x : JsNum) : jsstring :=
  match x with
  | NaN => js "NaN"
  | Dec m e =>
      if m =? 0 then js "0"
      else
        let '(s, e) := drop_zeros (rev (decimal_of (Z.abs m))) e in
        let k := Z.of_nat (length s) in
        let n := k + e in
        (if m <? 0 then js "-" else []) ++
        (if (k <=? n) && (n <=? 21) then s ++ repeat 48%N (Z.to_nat (n - k))
         else if (0 <? n) && (n <=? 21) then
           take (Z.to_nat n) s ++ js "." ++ drop (Z.to_nat n) s
         else if (-6 <? n) && (n <=? 0) then
           js "0." ++ repeat 48%N (Z.to_nat (- n)) ++ s
         else
           take 1 s ++ (if k =? 1 then [] else js "." ++ drop 1 s) ++ js "e"
           ++ (if 0 <=? n - 1 then js "+" else js "-") ++ decimal_of (Z.abs (n - 1)))
  end.

Definition join (parts : list jsstring) : jsstring :=
  match parts with
  | [] => []
  | p :: ps => p ++ concat (map (fun q => js "," ++ q) ps)
  end.

(** SerializeJSONProperty; [None] where the value is left out ([undefined]). *)
Fixpoint serialize (v : JsVal) : option jsstring :=
  match v with
  | VUndef => None
  | VNull => Some (js "null")
  | VBool b => Some (if b then js "true" else js "false")
  | VNum NaN => Some (js "null")
  | VNum x => Some (number_string x)
  | VStr s => Some (quote s)
  | VDate (Some t) => Some (quote (iso_string t))
  | VDate None => Some (js "null")
  | VArr elems =>
      Some (js "[" ++ join (map (fun x => default (js "null") (serialize x)) elems) ++ js "]")
  | VObj props =>
      Some (js "{" ++
            join (omap (fun kv => match serialize (snd kv) with
                                  | Some txt => Some (quote (fst kv) ++ js ":" ++ txt)
                                  | None => None
                                  end) props)
            ++ js "}")
  end.

(** [JSON.stringify(v)] as [setItem] receives it *)
Definition stringify (v : JsVal) : jsstring := default (js "undefined") (serialize v).

#[export] Instance engine : Engine := {|
  JSON_parse := parse;
  JSON_stringify := stringify;
  Date_parse_other := fun _ => None
|}.

End Reference.

(** ** The words of the specification *)

Module Spec.

(** The completion flag as the program reads it ([t.completed] in a
    condition); for a boolean it is the flag itself. *)
Definition done (t : TaskModel.t) : bool := truthy (TaskModel.completed t).

(** "text: never empty after trimming" *)
Definition nonblank (v : JsVal) : bool :=
  match v with
  | VStr s => negb (str_eqb (trim s) [])
  | _ => false
  end.

Definition text_ok (t : TaskModel.t) : Prop := Is_true (nonblank (TaskModel.text t)).

(** "removes the first task with matching id" *)
Fixpoint remove_first {A} (p : A -> bool) (l : list A) : list A :=
  match l with
  | [] => []
  | x :: l' => if p x then l' else x :: remove_first p l'
  end.

(** [selection p l r]: [r] is exactly the subsequence of [l] of the
    elements with [p], in the order of [l]. *)
Inductive selection {A} (p : A -> bool) : list A -> list A -> Prop :=
| selection_nil : selection p [] []
| selection_take x l r : p x = true -> selection p l r -> selection p (x :: l) (x :: r)
| selection_skip x l r : p x = false -> selection p l r -> selection p (x :: l) r.

(** "count where" *)
Fixpoint count {A} (p : A -> bool) (l : list A) : nat :=
  match l with
  | [] => O
  | x :: l' => if p x then S (count p l') else count p l'
  end.

Definition is_integer (n : JsNum) : bool :=
  match n with
  | NaN => false
  | Dec m e => (0 <=? e) || (m mod 10 ^ (- e) =? 0)
  end.

(** "{id: integer, text: string, completed: boolean, createdAt: ISO-8601
    string}" *)
Definition task_record (v : JsVal) : bool :=
  match v with
  | VObj props =>
      match lookup_last (js "id") props VUndef, lookup_last (js "text") props VUndef,
            lookup_last (js "completed") props VUndef,
            lookup_last (js "createdAt") props VUndef with
      | VNum n, VStr _, VBool _, VStr iso => is_integer n && bool_decide (is_Some (parse_iso iso))
      | _, _, _, _ => false
      end
  | _ => false
  end.

(** "the expected JSON array of task records" *)
Definition expected_blob `{Engine} (blob : jsstring) : bool :=
  match JSON_parse blob with
  | Some (VArr records) => forallb task_record records
  | _ => false
  end.

(** A value [fromJSON] makes a task of: its properties can be read (it is
    not [null] or [undefined]) and [new Date] takes its [createdAt] (the
    conversion to a primitive value does not throw). *)
Definition dateable (r : JsVal) : bool :=
  match get_field r (js "createdAt") with
  | inr createdAt => negb (ToPrimitive_throws createdAt)
  | inl _ => false
  end.

(** What [loadTasks] can turn into tasks: an array of such values. *)
Definition loadable (v : JsVal) : bool :=
  match v with
  | VArr records => forallb dateable records
  | _ => false
  end.

(** The records of the persisted blob, if it holds an array, each have a
    string [text] that is not blank. *)
Definition record_text_ok (r : JsVal) : bool :=
  match get_field r (js "text") with
  | inr v => nonblank v
  | inl _ => false
  end.

Definition blob_texts_ok `{Engine} (w : World) : Prop :=
  Is_true
    match localStorage w !! js "tasks" with
    | Some blob =>
        match JSON_parse blob with
        | Some (VArr records) => forallb record_text_ok records
        | _ => true
        end
    | None => true
    end.

(** The calls a user of the view model makes. *)
Inductive call : Type :=
| AddTask (text : jsstring)
| ToggleTask (id : JsVal)
| DeleteTask (id : JsVal)
| SetFilter (filter : JsVal)
| GetFilteredTasks
| GetStats
| ClearAllTasks
| LoadFromPersistence.

Definition run `{Engine} (c : call) (s : TaskViewModel.State) : TaskViewModel.State :=
  match c with
  | AddTask text => snd (TaskViewModel.addTask text s)
  | ToggleTask id => snd (TaskViewModel.toggleTask id s)
  | DeleteTask id => snd (TaskViewModel.deleteTask id s)
  | SetFilter filter => snd (TaskViewModel.setFilter filter s)
  | GetFilteredTasks => snd (TaskViewModel.getFilteredTasks s)
  | GetStats => snd (TaskViewModel.getStats s)
  | ClearAllTasks => snd (TaskViewModel.clearAllTasks s)
  | LoadFromPersistence => snd (TaskViewModel.loadTasks s)
  end.

(** The states a view model reaches: it is created in some browser, it is
    called, and the browser changes under it (another tab, the user).
    [readable w] restricts the browsers in which the persisted blob is
    loaded. *)
Inductive reachable `{Engine} (readable : World -> Prop) : TaskViewModel.State -> Prop :=
| reach_new w :
    readable w -> reachable readable (snd (TaskViewModel.new w))
| reach_call c s :
    reachable readable s ->
    (c = LoadFromPersistence -> readable (TaskViewModel.world s)) ->
    reachable readable (run c s)
| reach_world s w :
    reachable readable s ->
    reachable readable {| TaskViewModel.this := TaskViewModel.this s; TaskViewModel.world := w |}.

End Spec.

(** ** Concrete browsers and blobs *)

Module Scenario.

(** JSON text written with ['] for the double quote. *)
Definition json_text (s : string) : jsstring :=
  map (fun c => if (c =? 0x27)%N then 0x22%N else c) (js s).

(** A browser whose clock advances one millisecond per reading. *)
Definition browser (blob : option jsstring) : World :=
  {| localStorage := match blob with
                     | Some b => {[ js "tasks" := b ]}
                     | None => ∅
                     end;
     quota := 5000000;
     setItem_calls := 0;
     clock := fun n => 1700000000000 + Z.of_nat n;
     clock_reads := 0 |}.

(** A browser whose storage takes nothing. *)
Definition full_browser : World :=
  {| localStorage := ∅;
     quota := 0;
     setItem_calls := 0;
     clock := fun n => 1700000000000 + Z.of_nat n;
     clock_reads := 0 |}.

(** A browser whose clock stands still: every reading falls in the same
    millisecond. *)
Definition fast_browser : World :=
  {| localStorage := ∅;
     quota := 5000000;
     setItem_calls := 0;
     clock := fun _ => 1700000000000;
     clock_reads := 0 |}.

Definition task (id : Z) (text : string) (completed : bool) (createdAt : Z) : TaskModel.t :=
  {| TaskModel.id := num_of_Z id;
     TaskModel.text := VStr (js text);
     TaskModel.completed := VBool completed;
     TaskModel.createdAt := VDate (Some createdAt) |}.

Definition state (ts : list TaskModel.t) (filter : string) (w : World) : TaskViewModel.State :=
  {| TaskViewModel.this := {| TaskViewModel.tasks := ts; TaskViewModel.currentFilter := VStr (js filter) |};
     TaskViewModel.world := w |}.

End Scenario.

(** ** TaskView.formatTime (TaskView.js)

    The view's one method without the DOM.  Its numbers are differences of
    time values and their floors: integers, or NaN for an invalid date
    ([None]).  (Exact integers agree with binary64 as long as the
    difference stays below 2^53.) *)

Module TaskView.

(** [a - b] *)
Definition num_sub (a b : option Z) : option Z :=
  match a, b with
  | Some x, Some y => Some (x - y)
  | _, _ => None
  end.

(** [Math.floor(a / c)] for a positive constant [c] *)
Definition floor_div (a : option Z) (c : Z) : option Z :=
  match a with
  | Some x => Some (x / c)
  | None => None
  end.

(** [a < c]: false on NaN *)
Definition num_lt (a : option Z) (c : Z) : bool :=
  match a with
  | Some x => x <? c
  | None => false
  end.

(** [`${n}`] *)
Definition template (n : option Z) : jsstring :=
  Reference.number_string
    match n with
    | Some z => Dec z 0
    | None => NaN
    end.

(** [formatTime(date)], for the Date object with time value [date] *)
Definition formatTime (date : option Z) : JS World jsstring :=
  now ← Date_new;
  let diff := num_sub (match now with VDate tv => tv | _ => None end) date in
  let minutes := floor_div diff 60000 in
  let hours := floor_div diff 3600000 in
  let days := floor_div diff 86400000 in
  if num_lt minutes 1 then mret (js "Gerade eben")
  else if num_lt minutes 60 then mret (js "vor " ++ template minutes ++ js "min")
  else if num_lt hours 24 then mret (js "vor " ++ template hours ++ js "h")
  else mret (js "vor " ++ template days ++ js "d").

End TaskView.

(** ** window.debug (app.js)

    The view model is the one of the view; what the functions draw and log
    is not modelled. *)

Module App.

Import TaskViewModel.

Definition demo_1 : jsstring := js "Einkaufen gehen".
Definition demo_2 : jsstring := js "Email an Chef senden".
Definition demo_3 : jsstring := js "Projekt-Pr" ++ [0xE4%N] ++ js "sentation vorbereiten".
Definition demo_4 : jsstring := js "Sport treiben".

(** [view.viewModel.tasks[i]]: [undefined] beyond the end *)
Definition tasks_at (i : nat) : JS State (option TaskModel.t) :=
  ts ← get_tasks; mret (ts !! i).

(** [debug.addDemoData()] *)
Definition addDemoData `{Engine} : JS State unit :=
  addTask demo_1;;
  addTask demo_2;;
  addTask demo_3;;
  addTask demo_4;;
  second ← tasks_at 1;
  id ← match second with
       | Some task => mret (TaskModel.id task)
       | None => throw TypeError
       end;
  toggleTask id;;
  mret tt.

End App.

(** ** What is stored and what is saved *)

Module Stored.

(** A task as the constructor leaves it: the flag is never [undefined],
    the date is a Date object. *)
Definition shaped (t : TaskModel.t) : Prop :=
  TaskModel.completed t <> VUndef /\ exists tv, TaskModel.createdAt t = VDate tv.

(** A task whose date is a valid Date: [toJSON] does not throw. *)
Definition dated (t : TaskModel.t) : Prop :=
  exists ms, TaskModel.createdAt t = VDate (Some ms).

(** A task that [fromJSON] gives back from what [toJSON] makes of it. *)
Definition storable (t : TaskModel.t) : Prop :=
  TaskModel.completed t <> VUndef
  /\ exists ms, TaskModel.createdAt t = VDate (Some ms) /\ Z.abs ms <= maxTime.

(** The task [addTask] creates: the id is the clock's reading [id], the
    date the reading [date]. *)
Definition created (id : Z) (text : jsstring) (completed : bool) (date : Z) : TaskModel.t :=
  {| TaskModel.id := num_of_Z id;
     TaskModel.text := VStr text;
     TaskModel.completed := VBool completed;
     TaskModel.createdAt := VDate (TimeClip date) |}.

(** The object [toJSON] returns for a dated task *)
Definition record (t : TaskModel.t) : JsVal :=
  VObj [(js "id", TaskModel.id t); (js "text", TaskModel.text t);
        (js "completed", TaskModel.completed t);
        (js "createdAt",
         match TaskModel.createdAt t with
         | VDate (Some ms) => VStr (iso_string ms)
         | _ => VUndef
         end)].

(** The task [fromJSON] makes of a value of which it makes one
    ([Spec.dateable]) *)
Definition task_of `{Engine} (r : JsVal) : TaskModel.t :=
  let field k := match get_field r k with inr v => v | inl _ => VUndef end in
  let completed := field (js "completed") in
  {| TaskModel.id := field (js "id");
     TaskModel.text := field (js "text");
     TaskModel.completed :=
       match completed with VUndef => VBool false | _ => completed end;
     TaskModel.createdAt := VDate (time_value (field (js "createdAt"))) |}.

(** The blob [saveTasks] writes fits the storage. *)
Definition fits (w : World) (blob : jsstring) : Prop :=
  (N.of_nat (storage_size (<[js "tasks" := blob]> (localStorage w))) <= quota w)%N.

(** The browser after a write of [blob] that fits *)
Definition written (w : World) (blob : jsstring) : World :=
  {| localStorage := <[js "tasks" := blob]> (localStorage w);
     quota := quota w;
     setItem_calls := S (setItem_calls w);
     clock := clock w;
     clock_reads := clock_reads w |}.

(** The browser after a write that was refused *)
Definition refused (w : World) : World :=
  {| localStorage := localStorage w;
     quota := quota w;
     setItem_calls := S (setItem_calls w);
     clock := clock w;
     clock_reads := clock_reads w |}.

(** The browser after [n] more readings of the clock *)
Definition ticked (n : nat) (w : World) : World :=
  {| localStorage := localStorage w;
     quota := quota w;
     setItem_calls := setItem_calls w;
     clock := clock w;
     clock_reads := (n + clock_reads w)%nat |}.

End Stored.

(** * Properties *)

Ltac zdiv := Z.div_mod_to_equations; lia.

(** ** Dates: [toISOString] and [Date.parse] agree *)

Lemma read_digits_app n m acc k rest :
  0 <= k < 10 ^ Z.of_nat n ->
  read_digits (n + m) acc (digits n k ++ rest) = read_digits m (acc * 10 ^ Z.of_nat n + k) rest.
Proof.
  revert m acc k rest. induction n as [|n IH]; intros m acc k rest Hk.
  - simpl in *. f_equal. lia.
  - cbn [digits]. rewrite <- app_assoc.
    replace (S n + m)%nat with (n + S m)%nat by lia.
    rewrite Nat2Z.inj_succ, Z.pow_succ_r in Hk by lia.
    rewrite IH by (Z.div_mod_to_equations; lia).
    cbn [app read_digits].
    assert (Hd : 0 <= k mod 10 < 10) by (apply Z.mod_pos_bound; lia).
    replace (is_digit (48 + Z.to_N (k mod 10))) with true
      by (symmetry; unfold is_digit; apply andb_true_intro; split; apply N.leb_le; lia).
    f_equal. rewrite Nat2Z.inj_succ, Z.pow_succ_r by lia.
    rewrite N2Z.inj_add, Z2N.id by lia. Z.div_mod_to_equations; lia.
Qed.

Lemma read_digits_digits n k rest :
  0 <= k < 10 ^ Z.of_nat n ->
  read_digits n 0 (digits n k ++ rest) = Some (k, rest).
Proof.
  intros Hk. rewrite <- (Nat.add_0_r n) at 1. rewrite read_digits_app by done.
  simpl. f_equal.
Qed.

Lemma YearFromDay_spec d :
  DayFromYear (YearFromDay d) <= d < DayFromYear (YearFromDay d + 1).
Proof.
  unfold YearFromDay.
  set (y := 1970 + d * 400 / 146097).
  destruct (Z.ltb_spec d (DayFromYear y)) as [Hlt|Hge];
    [|destruct (Z.leb_spec (DayFromYear (y + 1)) d) as [Hle|Hlt]].
  - replace (y - 1 + 1) with y by lia. split; [|lia].
    unfold DayFromYear in *. subst y. zdiv.
  - split; [|]; unfold DayFromYear in *; subst y; zdiv.
  - lia.
Qed.

Lemma DaysInYear_leap y : DaysInYear y = 365 + InLeapYear y.
Proof.
  unfold InLeapYear, DaysInYear.
  repeat match goal with |- context [negb (?a =? ?b)] => destruct (Z.eqb_spec a b); cbn [negb] end;
    reflexivity.
Qed.

Lemma DayFromYear_succ y : DayFromYear (y + 1) = DayFromYear y + DaysInYear y.
Proof.
  unfold DayFromYear, DaysInYear.
  repeat match goal with |- context [negb (?a =? ?b)] => destruct (Z.eqb_spec a b); cbn [negb] end;
    zdiv.
Qed.

Lemma InLeapYear_range y : 0 <= InLeapYear y <= 1.
Proof. unfold InLeapYear. destruct (_ =? _); lia. Qed.

Lemma DayWithinYear_range t :
  0 <= DayWithinYear t < 365 + InLeapYear (YearFromTime t).
Proof.
  unfold DayWithinYear, YearFromTime.
  pose proof (YearFromDay_spec (Day t)) as H.
  rewrite DayFromYear_succ, DaysInYear_leap in H. lia.
Qed.

Lemma month_of_day_spec l d :
  0 <= l <= 1 -> 0 <= d < 365 + l ->
  let m := month_of_day l d in
  0 <= m <= 11 /\ month_start l m <= d < month_start l (m + 1)
  /\ month_start l (m + 1) - month_start l m <= 31.
Proof.
  intros Hl Hd. unfold month_of_day.
  repeat (match goal with |- context [if ?a <? ?b then _ else _] =>
            destruct (Z.ltb_spec a b) end; cbv iota);
    cbv zeta;
    match goal with |- context [month_start _ (?k + 1)] =>
      let v := eval vm_compute in (k + 1) in change (k + 1) with v end;
    cbv beta iota delta [month_start]; lia.
Qed.

Lemma time_within_day t :
  MakeTime (HourFromTime t) (MinFromTime t) (SecFromTime t) (msFromTime t) = TimeWithinDay t.
Proof.
  unfold MakeTime, HourFromTime, MinFromTime, SecFromTime, msFromTime, TimeWithinDay,
    msPerHour, msPerMinute, msPerSecond, msPerDay. zdiv.
Qed.

Lemma year_range t :
  Z.abs t <= maxTime -> -1000000 < YearFromTime t < 1000000.
Proof.
  unfold maxTime, YearFromTime. intros Ht.
  pose proof (YearFromDay_spec (Day t)) as H. revert H.
  generalize (YearFromDay (Day t)). intros y.
  unfold DayFromYear, Day, msPerDay. zdiv.
Qed.

Lemma read_year_string y rest :
  -1000000 < y < 1000000 -> read_year (year_string y ++ rest) = Some (y, rest).
Proof.
  intros Hy. unfold year_string.
  destruct (Z.leb_spec 0 y) as [H0|H0]; [destruct (Z.leb_spec y 9999) as [H1|H1]|]; cbn [andb].
  - pose proof (read_digits_digits 4 y rest ltac:(simpl; lia)) as E.
    cbn [digits app] in *. unfold read_year.
    rewrite E.
    assert (Hd : 0 <= y / 10 / 10 / 10 mod 10 < 10) by (apply Z.mod_pos_bound; lia).
    destruct (N.eqb_spec (48 + Z.to_N (y / 10 / 10 / 10 mod 10)) 43); [lia|].
    destruct (N.eqb_spec (48 + Z.to_N (y / 10 / 10 / 10 mod 10)) 45); [lia|].
    reflexivity.
  - destruct (Z.ltb_spec y 0); [lia|].
    rewrite <- List.app_assoc. change (js "+" ++ ?s) with (43%N :: s).
    unfold read_year. cbn [N.eqb Pos.eqb].
    rewrite read_digits_digits by (simpl; lia). f_equal. f_equal. lia.
  - destruct (Z.ltb_spec y 0); [|lia].
    rewrite <- List.app_assoc. change (js "-" ++ ?s) with (45%N :: s).
    unfold read_year. cbn [N.eqb Pos.eqb].
    rewrite read_digits_digits by (simpl; lia). cbn.
    destruct (Z.eqb_spec (Z.abs y) 0); [lia|]. f_equal. f_equal. lia.
Qed.

Theorem parse_iso_string t :
  Z.abs t <= maxTime -> parse_iso (iso_string t) = Some t.
Proof.
  intros Ht. unfold parse_iso, iso_string.
  pose proof (DayWithinYear_range t) as Hd.
  pose proof (InLeapYear_range (YearFromTime t)) as Hl.
  pose proof (month_of_day_spec _ _ Hl Hd) as (Hm & Hms & Hml). cbn zeta in *.
  fold (MonthFromTime t) in *.
  assert (Hdate : 1 <= DateFromTime t <= 31) by (unfold DateFromTime; lia).
  assert (Hh : 0 <= HourFromTime t < 24) by (unfold HourFromTime; zdiv).
  assert (Hmi : 0 <= MinFromTime t < 60) by (unfold MinFromTime; zdiv).
  assert (Hs : 0 <= SecFromTime t < 60) by (unfold SecFromTime; zdiv).
  assert (Hmsec : 0 <= msFromTime t < 1000) by (unfold msFromTime, msPerSecond; zdiv).
  rewrite read_year_string by (apply year_range; done). cbn [mbind option_bind].
  repeat first
    [ progress change (expect ?c (js ?c ++ ?s)) with (Some s)
    | rewrite read_digits_digits by (simpl; lia)
    | progress cbn [mbind option_bind] ].
  change (expect "Z" (js "Z")) with (Some (@nil N)). cbn [mbind option_bind].
  replace (MonthFromTime t + 1 - 1) with (MonthFromTime t) by lia.
  repeat match goal with |- context [?a <=? ?b] =>
    destruct (Z.leb_spec a b); [|unfold DateFromTime in *; lia] end.
  cbn [andb]. rewrite time_within_day.
  replace (MakeDate _ _) with t.
  - unfold TimeClip. destruct (Z.leb_spec (Z.abs t) maxTime); [done|lia].
  - unfold MakeDate, MakeDay, DateFromTime, DayWithinYear, TimeWithinDay, Day, msPerDay. zdiv.
Qed.

(** ** Strings *)

Lemma trimStart_head s c : head (trimStart s) = Some c -> is_ws c = false.
Proof.
  induction s as [|x s IH]; cbn; [done|].
  destruct (is_ws x) eqn:Hx; [done|]. cbn. congruence.
Qed.

Lemma trimStart_clean s :
  (forall c, head s = Some c -> is_ws c = false) -> trimStart s = s.
Proof.
  destruct s as [|x s]; cbn; [done|]. intros Hx. rewrite (Hx x); done.
Qed.

Lemma trimStart_suffix s : exists p, s = p ++ trimStart s.
Proof.
  induction s as [|x s [p IH]]; cbn; [exists []; done|].
  destruct (is_ws x); [exists (x :: p); cbn; congruence | exists []; done].
Qed.

Lemma trimEnd_prefix s : exists q, s = trimEnd s ++ q.
Proof.
  destruct (trimStart_suffix (rev s)) as [p Hp]. exists (rev p).
  unfold trimEnd. rewrite <- rev_app_distr, <- Hp, rev_involutive. done.
Qed.

Lemma trimEnd_trimEnd s : trimEnd (trimEnd s) = trimEnd s.
Proof.
  unfold trimEnd. rewrite rev_involutive.
  rewrite (trimStart_clean (trimStart _)); [done|]. apply trimStart_head.
Qed.

(** Trimming a trimmed string changes nothing. *)
Lemma trim_trim s : trim (trim s) = trim s.
Proof.
  unfold trim. rewrite (trimStart_clean (trimEnd _)); [apply trimEnd_trimEnd|].
  intros c Hc. apply (trimStart_head s).
  destruct (trimEnd_prefix (trimStart s)) as [q Hq].
  rewrite Hq. destruct (trimEnd (trimStart s)); [done|]. exact Hc.
Qed.

Lemma trimStart_blank s : forallb is_ws s = true -> trimStart s = [].
Proof.
  induction s as [|c s IH]; cbn; [done|].
  intros [Hc Hs]%andb_prop. rewrite Hc. auto.
Qed.

(** A string of whitespace only trims to the empty string. *)
Lemma trim_blank s : forallb is_ws s = true -> trim s = [].
Proof. intros Hs. unfold trim. rewrite trimStart_blank; done. Qed.

Lemma truthy_str s : truthy (VStr s) = true <-> s <> [].
Proof.
  cbn. rewrite negb_true_iff. unfold str_eqb. rewrite bool_decide_eq_false. done.
Qed.

Lemma strict_eq_str (v : JsVal) (k : jsstring) :
  strict_eq v (VStr k) = true <-> v = VStr k.
Proof.
  destruct v; cbn; try (split; [discriminate|discriminate]).
  unfold str_eqb. rewrite bool_decide_eq_true. split; congruence.
Qed.

(** ** Lists *)

Lemma filter_none {A} (p : A -> bool) (l : list A) :
  Forall (fun x => p x = true) l -> List.filter p l = l.
Proof. induction 1 as [|x l Hx _ IH]; cbn; [done|]. rewrite Hx, IH. done. Qed.

Lemma filter_one {A} (p : A -> bool) (l1 l2 : list A) (x : A) :
  p x = false -> Forall (fun y => p y = true) (l1 ++ l2) ->
  List.filter p (l1 ++ x :: l2) = l1 ++ l2.
Proof.
  intros Hx [H1 H2]%Forall_app.
  rewrite List.filter_app. cbn. rewrite Hx, !filter_none; done.
Qed.

Lemma selection_filter {A} (p : A -> bool) (l : list A) :
  Spec.selection p l (List.filter p l).
Proof.
  induction l as [|x l IH]; cbn; [constructor|].
  destruct (p x) eqn:Hx; [apply Spec.selection_take | apply Spec.selection_skip]; done.
Qed.

Lemma filter_length_count {A} (p : A -> bool) (l : list A) :
  length (List.filter p l) = Spec.count p l.
Proof. induction l as [|x l IH]; cbn; [done|]. destruct (p x); cbn; lia. Qed.

Lemma count_split {A} (p : A -> bool) (l : list A) :
  (Spec.count p l + Spec.count (fun x => negb (p x)) l)%nat = length l.
Proof. induction l as [|x l IH]; cbn; [done|]. destruct (p x); cbn; lia. Qed.


(** ** The methods, one by one *)

Import TaskViewModel.

(** Runs the statements of a method up to the next call. *)
Ltac run_js :=
  cbv [mbind JS_bind in_world Date_now TaskModel.new Date_new mret JS_ret
       get_tasks set_tasks get_currentFilter set_currentFilter];
  cbn [world this tasks currentFilter clock clock_reads localStorage quota
       setItem_calls fst snd].

(** Replaces the call of [saveTasks] in the goal by its result, with [lem]. *)
Ltac run_saveTasks lem :=
  match goal with
  | |- context [saveTasks ?s0] => destruct (lem s0) as [? ->]
  end.

Section Methods.

Context `{Engine}.

Lemma in_world_this {A} (m : JS World A) s :
  exists w, in_world m s = (fst (m (world s)), {| this := this s; world := w |}).
Proof. unfold in_world. destruct (m (world s)) as [r w]. eauto. Qed.

(** [saveTasks] catches whatever it throws, and changes the browser only. *)
Lemma saveTasks_this s :
  exists w, saveTasks s = (Normal tt, {| this := this s; world := w |}).
Proof.
  unfold saveTasks, try_catch, mbind, JS_bind, get_tasks.
  destruct (in_world_this (js_mapM TaskModel.toJSON (tasks (this s))) s) as [w1 ->].
  destruct (fst _) as [json|e]; [|cbn; eauto].
  destruct (in_world_this (setItem (js "tasks") (JSON_stringify (VArr json)))
              {| this := this s; world := w1 |}) as [w2 ->].
  cbn [this]. destruct (fst _) as [[]|e]; cbn; eauto.
Qed.

Lemma addTask_blank text s : trim text = [] -> addTask text s = (Normal false, s).
Proof. intros Hblank. unfold addTask. rewrite Hblank. cbn. rewrite orb_true_r. done. Qed.

(** An accepted task: its id is the clock's reading, its date the next. *)
Lemma addTask_pushes text s :
  trim text <> [] ->
  exists w,
    addTask text s
    = (Normal true,
       {| this :=
            {| tasks :=
                 {| TaskModel.id := num_of_Z (clock (world s) (clock_reads (world s)));
                    TaskModel.text := VStr (trim text);
                    TaskModel.completed := VBool false;
                    TaskModel.createdAt :=
                      VDate (TimeClip (clock (world s) (S (clock_reads (world s))))) |}
                 :: tasks (this s);
               currentFilter := currentFilter (this s) |};
          world := w |}).
Proof.
  intros Htrim.
  assert (Htext : text <> []) by (intros ->; done).
  unfold addTask.
  apply truthy_str in Htrim as ->. apply truthy_str in Htext as ->. cbn [negb orb].
  run_js. run_saveTasks saveTasks_this. eauto.
Qed.

Lemma has_id_negb id (l : list TaskModel.t) :
  Forall (fun u => has_id id u = false) l ->
  Forall (fun u => negb (has_id id u) = true) l.
Proof. intros Hl. eapply Forall_impl; [exact Hl|]. intros u ->. done. Qed.

(** An id that a task has is a primitive value: printing it cannot throw. *)
Lemma has_id_prints id t : has_id id t = true -> ToPrimitive_throws id = false.
Proof. unfold has_id. destruct (TaskModel.id t), id; try discriminate; done. Qed.

Lemma console_log_cases {S} (v : JsVal) (s : S) :
  console_log v s = (if ToPrimitive_throws v then Throw TypeError else Normal tt, s).
Proof. unfold console_log. destruct (ToPrimitive_throws v); done. Qed.

(** [deleteTask] ends with the console in both branches: the call throws
    exactly when the id cannot be printed, the tasks being filtered (and
    saved) by then. *)
Lemma deleteTask_tasks id s :
  fst (deleteTask id s) = (if ToPrimitive_throws id then Throw TypeError else Normal tt)
  /\ tasks (this (snd (deleteTask id s)))
     = List.filter (fun t => negb (has_id id t)) (tasks (this s))
  /\ currentFilter (this (snd (deleteTask id s))) = currentFilter (this s).
Proof.
  unfold deleteTask. run_js.
  destruct (_ <? _)%nat.
  - run_saveTasks saveTasks_this. rewrite console_log_cases.
    destruct (ToPrimitive_throws id); done.
  - rewrite console_log_cases. destruct (ToPrimitive_throws id); done.
Qed.

(** Nothing to delete: the filtered array has the old length, and nothing
    is saved. *)
Lemma deleteTask_missing id s :
  Forall (fun u => has_id id u = false) (tasks (this s)) ->
  deleteTask id s = (if ToPrimitive_throws id then Throw TypeError else Normal tt, s).
Proof.
  intros Hno%has_id_negb. unfold deleteTask. run_js.
  rewrite (filter_none _ _ Hno).
  destruct (Nat.ltb_spec (length (tasks (this s))) (length (tasks (this s)))); [lia|].
  rewrite console_log_cases. destruct s as [[ts f] w]. done.
Qed.

Lemma toggleTask_found id s i t :
  list_find (fun t => Is_true (has_id id t)) (tasks (this s)) = Some (i, t) ->
  exists w,
    toggleTask id s
    = (Normal true,
       {| this := {| tasks := <[i := toggled t]> (tasks (this s));
                     currentFilter := currentFilter (this s) |};
          world := w |}).
Proof.
  intros Hfind. unfold toggleTask. run_js. rewrite Hfind. run_js.
  run_saveTasks saveTasks_this. rewrite console_log_cases.
  apply list_find_Some in Hfind as (_ & Hid%Is_true_true%has_id_prints & _).
  rewrite Hid. eauto.
Qed.

Lemma toggleTask_missing id s :
  list_find (fun t => Is_true (has_id id t)) (tasks (this s)) = None ->
  toggleTask id s = (if ToPrimitive_throws id then Throw TypeError else Normal false, s).
Proof.
  intros Hfind. unfold toggleTask. run_js. rewrite Hfind.
  run_js. rewrite console_log_cases. destruct (ToPrimitive_throws id); done.
Qed.


Lemma getFilteredTasks_pure s :
  getFilteredTasks s
  = (Normal
       (if strict_eq (currentFilter (this s)) (VStr (js "active")) then
          List.filter (fun t => negb (Spec.done t)) (tasks (this s))
        else if strict_eq (currentFilter (this s)) (VStr (js "completed")) then
          List.filter Spec.done (tasks (this s))
        else tasks (this s)),
     s).
Proof. unfold getFilteredTasks. run_js. repeat destruct (strict_eq _ _); done. Qed.

Lemma getStats_pure s : snd (getStats s) = s.
Proof. done. Qed.

(** [setFilter] assigns before it prints. *)
Lemma setFilter_state f s :
  setFilter f s
  = (if ToPrimitive_throws f then Throw TypeError else Normal tt,
     {| this := {| tasks := tasks (this s); currentFilter := f |}; world := world s |}).
Proof.
  unfold setFilter. run_js. rewrite console_log_cases.
  destruct (ToPrimitive_throws f); done.
Qed.

Lemma clearAllTasks_tasks s : tasks (this (snd (clearAllTasks s))) = [].
Proof. unfold clearAllTasks. run_js. run_saveTasks saveTasks_this. done. Qed.

(** *** Loading *)

Lemma get_field_cases json :
  (nullish json = true /\ forall k, get_field json k = inl TypeError)
  \/ (nullish json = false /\ forall k, exists v, get_field json k = inr v).
Proof. destruct json; cbn; eauto. Qed.

(** [fromJSON] throws on [null] and [undefined], whose properties cannot be
    read, and on a [createdAt] that [new Date] cannot convert. *)
Lemma fromJSON_throws json w :
  Spec.dateable json = false -> TaskModel.fromJSON json w = (Throw TypeError, w).
Proof.
  unfold Spec.dateable, TaskModel.fromJSON. intros Hjson.
  destruct (get_field_cases json) as [[_ Hget] | [_ Hget]].
  - rewrite !Hget. done.
  - destruct (Hget (js "id")) as [i Hi], (Hget (js "text")) as [tx Htx],
      (Hget (js "completed")) as [c Hc], (Hget (js "createdAt")) as [ca Hca].
    rewrite Hi, Htx, Hc, Hca. rewrite Hca in Hjson.
    apply negb_false_iff in Hjson.
    cbv [eval mbind JS_bind mret JS_ret Date_of]. rewrite Hjson. done.
Qed.

Lemma fromJSON_returns json w :
  Spec.dateable json = true ->
  exists t, TaskModel.fromJSON json w = (Normal t, w)
            /\ get_field json (js "text") = inr (TaskModel.text t).
Proof.
  unfold Spec.dateable, TaskModel.fromJSON. intros Hjson.
  destruct (get_field_cases json) as [[_ Hget] | [_ Hget]];
    [rewrite Hget in Hjson; discriminate|].
  destruct (Hget (js "id")) as [i Hi], (Hget (js "text")) as [tx Htx],
    (Hget (js "completed")) as [c Hc], (Hget (js "createdAt")) as [ca Hca].
  rewrite Hi, Htx, Hc, Hca. rewrite Hca in Hjson.
  apply negb_true_iff in Hjson.
  cbv [eval mbind JS_bind mret JS_ret TaskModel.new Date_of]. rewrite Hjson. eauto.
Qed.

(** Mapping [fromJSON] over an array: one task per element, or a TypeError
    at the first element of which [fromJSON] makes no task; the browser is
    not touched. *)
Lemma js_mapM_fromJSON (records : list JsVal) w :
  if forallb Spec.dateable records then
    exists ts, js_mapM TaskModel.fromJSON records w = (Normal ts, w)
               /\ Forall2 (fun r t => get_field r (js "text") = inr (TaskModel.text t))
                    records ts
  else js_mapM TaskModel.fromJSON records w = (Throw TypeError, w).
Proof.
  induction records as [|r records IH]; cbn [forallb js_mapM].
  - eexists. split; [done|constructor].
  - destruct (Spec.dateable r) eqn:Hr; cbn [negb andb].
    + destruct (fromJSON_returns r w Hr) as (t & Ht & Htext).
      unfold mbind, JS_bind. rewrite Ht.
      destruct (forallb _ records).
      * destruct IH as (ts & -> & Hts). eexists. split; [done|]. constructor; done.
      * rewrite IH. done.
    + unfold mbind, JS_bind. rewrite fromJSON_throws; done.
Qed.

Lemma loadTasks_skips s :
  localStorage (world s) !! js "tasks" = None
  \/ localStorage (world s) !! js "tasks" = Some [] ->
  loadTasks s = (Normal tt, s).
Proof.
  intros Hblob. unfold loadTasks, try_catch, getItem. run_js.
  destruct s as [[ts f] w]. cbn [world] in *.
  destruct Hblob as [-> | ->]; done.
Qed.

Lemma loadTasks_resets s blob :
  localStorage (world s) !! js "tasks" = Some blob ->
  blob <> [] ->
  JSON_parse blob = None
  \/ (exists v, JSON_parse blob = Some v /\ Spec.loadable v = false) ->
  loadTasks s
  = (Normal tt, {| this := {| tasks := []; currentFilter := currentFilter (this s) |};
                   world := world s |}).
Proof.
  intros Hblob Hne%truthy_str Hbad.
  unfold loadTasks, try_catch, getItem. run_js. rewrite Hblob, Hne.
  unfold JSON_parse_js.
  destruct Hbad as [-> | (v & -> & Hv)]; [done|].
  cbv [mret JS_ret]. unfold Array_map.
  destruct v; try done.
  pose proof (js_mapM_fromJSON elems (world s)) as Hmap.
  cbn [Spec.loadable] in Hv. rewrite Hv in Hmap. run_js. rewrite Hmap. done.
Qed.

Lemma loadTasks_loads s blob records :
  localStorage (world s) !! js "tasks" = Some blob ->
  blob <> [] ->
  JSON_parse blob = Some (VArr records) ->
  Spec.loadable (VArr records) = true ->
  exists ts,
    loadTasks s
    = (Normal tt, {| this := {| tasks := ts; currentFilter := currentFilter (this s) |};
                     world := world s |})
    /\ Forall2 (fun r t => get_field r (js "text") = inr (TaskModel.text t)) records ts.
Proof.
  intros Hblob Hne%truthy_str Hparse Hv.
  unfold loadTasks, try_catch, getItem. run_js. rewrite Hblob, Hne.
  unfold JSON_parse_js. rewrite Hparse. cbv [mret JS_ret]. unfold Array_map.
  pose proof (js_mapM_fromJSON records (world s)) as Hmap.
  cbn [Spec.loadable] in Hv. rewrite Hv in Hmap. destruct Hmap as (ts & Hmap & Hts).
  run_js. rewrite Hmap. eauto.
Qed.

(** What [loadTasks] does, by the persisted blob: nothing, a reset, or one
    task per record. *)
Lemma loadTasks_cases s :
  loadTasks s = (Normal tt, s)
  \/ loadTasks s
     = (Normal tt, {| this := {| tasks := []; currentFilter := currentFilter (this s) |};
                      world := world s |})
  \/ exists blob records ts,
       localStorage (world s) !! js "tasks" = Some blob
       /\ JSON_parse blob = Some (VArr records)
       /\ loadTasks s
          = (Normal tt, {| this := {| tasks := ts; currentFilter := currentFilter (this s) |};
                           world := world s |})
       /\ Forall2 (fun r t => get_field r (js "text") = inr (TaskModel.text t)) records ts.
Proof.
  destruct (localStorage (world s) !! js "tasks") as [blob|] eqn:Hblob;
    [|left; apply loadTasks_skips; auto].
  destruct (decide (blob = [])) as [->|Hne]; [left; apply loadTasks_skips; auto|].
  destruct (JSON_parse blob) as [v|] eqn:Hparse;
    [|right; left; eapply loadTasks_resets; eauto].
  destruct (Spec.loadable v) eqn:Hv;
    [|right; left; eapply loadTasks_resets; eauto].
  destruct v; try discriminate.
  right; right.
  destruct (loadTasks_loads s blob elems Hblob Hne Hparse Hv) as (ts & Hload & Hts).
  eauto 10.
Qed.

(** *** The text of the stored tasks *)

Lemma addTask_texts text s :
  Forall Spec.text_ok (tasks (this s)) ->
  Forall Spec.text_ok (tasks (this (snd (addTask text s)))).
Proof.
  intros Hs. destruct (decide (trim text = [])) as [Hblank|Hne].
  - rewrite addTask_blank; done.
  - destruct (addTask_pushes text s Hne) as (w & ->). cbn [snd this tasks].
    constructor; [|done]. unfold Spec.text_ok. cbn [TaskModel.text Spec.nonblank].
    rewrite trim_trim. apply Is_true_true, truthy_str. done.
Qed.

Lemma toggleTask_texts id s :
  Forall Spec.text_ok (tasks (this s)) ->
  Forall Spec.text_ok (tasks (this (snd (toggleTask id s)))).
Proof.
  intros Hs.
  destruct (list_find (fun t => Is_true (has_id id t)) (tasks (this s)))
    as [[i t]|] eqn:Hfind.
  - destruct (toggleTask_found id s i t Hfind) as [w ->]. cbn [snd this tasks].
    apply Forall_insert; [done|].
    apply list_find_Some in Hfind as (Hi%list_elem_of_lookup_2 & _).
    rewrite Forall_forall in Hs. apply (Hs t Hi).
  - rewrite toggleTask_missing; done.
Qed.

Lemma deleteTask_texts id s :
  Forall Spec.text_ok (tasks (this s)) ->
  Forall Spec.text_ok (tasks (this (snd (deleteTask id s)))).
Proof.
  intros Hs. destruct (deleteTask_tasks id s) as (_ & -> & _).
  rewrite Forall_forall in *. intros t [Ht _]%list_elem_of_In%List.filter_In.
  apply Hs, list_elem_of_In. done.
Qed.

Lemma loadTasks_texts s :
  Spec.blob_texts_ok (world s) ->
  Forall Spec.text_ok (tasks (this s)) ->
  Forall Spec.text_ok (tasks (this (snd (loadTasks s)))).
Proof.
  intros Hblob Hs.
  destruct (loadTasks_cases s)
    as [-> | [-> | (blob & records & ts & Hget & Hparse & -> & Hts)]]; [done | constructor |].
  unfold Spec.blob_texts_ok in Hblob. rewrite Hget, Hparse in Hblob.
  cbn [snd this tasks]. clear Hget Hparse.
  induction Hts as [|r t records ts Hrt _ IH]; [constructor|].
  cbn [forallb] in Hblob. apply andb_prop_elim in Hblob as [Hr Hrest].
  constructor; [|auto].
  unfold Spec.record_text_ok in Hr. rewrite Hrt in Hr. exact Hr.
Qed.


(** ** The claims *)

(** C1: for every input string whose trimmed form is not empty, [addTask],
    on any state of the store, returns [true], makes [tasks] longer by
    exactly one, keeps the tasks stored before in their order, and puts the
    new task at position 0, with [completed = false] and the trimmed input
    as its text. *)
Theorem addTask_accepts (text : jsstring) (s : State) :
  trim text <> [] ->
  fst (addTask text s) = Normal true
  /\ length (tasks (this (snd (addTask text s)))) = S (length (tasks (this s)))
  /\ exists task,
       tasks (this (snd (addTask text s))) = task :: tasks (this s)
       /\ TaskModel.completed task = VBool false
       /\ TaskModel.text task = VStr (trim text).
Proof.
  intros Htrim. destruct (addTask_pushes text s Htrim) as (w & ->).
  cbn [fst snd this tasks length]. split_and!; [done..|].
  eexists. split_and!; done.
Qed.

(** C9: for every input string that is empty or holds whitespace only,
    [addTask], on any state of the store, returns [false] without an
    exception and leaves the whole state as it was: [tasks], and the browser
    with its persisted blob and its count of write attempts. *)
Theorem addTask_rejects (text : jsstring) (s : State) :
  forallb is_ws text = true ->
  addTask text s = (Normal false, s).
Proof. intros Hblank. apply addTask_blank, trim_blank, Hblank. Qed.

(** What [deleteTask id] keeps is the tasks without the id, in their
    order.  Where exactly one task has the id, as the ids are meant to be,
    that task goes and [tasks] gets shorter by exactly one; where no task
    has it, [tasks] stays as it was. *)
Lemma deleteTask_filters (id : JsVal) (s : State) :
  (forall l1 t l2,
      tasks (this s) = l1 ++ t :: l2 ->
      has_id id t = true ->
      Forall (fun u => has_id id u = false) (l1 ++ l2) ->
      tasks (this (snd (deleteTask id s))) = l1 ++ l2
      /\ S (length (tasks (this (snd (deleteTask id s))))) = length (tasks (this s)))
  /\ (Forall (fun u => has_id id u = false) (tasks (this s)) ->
      tasks (this (snd (deleteTask id s))) = tasks (this s))
  /\ Forall (fun u => has_id id u = false) (tasks (this (snd (deleteTask id s))))
  /\ Spec.selection (fun u => negb (has_id id u))
       (tasks (this s)) (tasks (this (snd (deleteTask id s)))).
Proof.
  destruct (deleteTask_tasks id s) as (_ & -> & _). split_and!.
  - intros l1 t l2 -> Ht Hothers%has_id_negb.
    rewrite filter_one by (done || rewrite Ht; done).
    split; [done|]. rewrite !length_app. cbn. lia.
  - intros Hno%has_id_negb. apply filter_none. done.
  - apply Forall_forall. intros u [_ Hu]%list_elem_of_In%List.filter_In.
    apply negb_true_iff. done.
  - apply selection_filter.
Qed.

(** C10: in a state of the store with no task of the given id,
    [deleteTask id] writes nothing: the browser, with the persisted blob
    and the count of write attempts, is as before the call. *)
Theorem deleteTask_missing_no_write (id : JsVal) (s : State) :
  Forall (fun u => has_id id u = false) (tasks (this s)) ->
  world (snd (deleteTask id s)) = world s
  /\ localStorage (world (snd (deleteTask id s))) = localStorage (world s)
  /\ setItem_calls (world (snd (deleteTask id s))) = setItem_calls (world s).
Proof. intros Hno. rewrite deleteTask_missing; done. Qed.


(** C4: in every state of the store [getFilteredTasks] returns, under the
    filter ['active'], exactly the subsequence of the tasks that are not
    completed, in store order; under ['completed'], exactly the subsequence
    of the completed ones, in store order; under ['all'] and any other
    value, [tasks] itself; and the call changes neither [tasks] nor
    [currentFilter]. *)
Theorem getFilteredTasks_selects (s : State) :
  exists r,
    getFilteredTasks s = (Normal r, s)
    /\ (currentFilter (this s) = VStr (js "active") ->
        Spec.selection (fun t => negb (Spec.done t)) (tasks (this s)) r)
    /\ (currentFilter (this s) = VStr (js "completed") ->
        Spec.selection Spec.done (tasks (this s)) r)
    /\ (currentFilter (this s) <> VStr (js "active") ->
        currentFilter (this s) <> VStr (js "completed") ->
        r = tasks (this s)).
Proof.
  rewrite getFilteredTasks_pure. eexists. split; [done|].
  destruct (strict_eq _ (VStr (js "active"))) eqn:Ha;
    [|destruct (strict_eq _ (VStr (js "completed"))) eqn:Hc].
  - apply strict_eq_str in Ha. split_and!.
    + intros _. apply selection_filter.
    + rewrite Ha. intros [=].
    + done.
  - apply strict_eq_str in Hc. split_and!.
    + rewrite Hc. intros [=].
    + intros _. apply selection_filter.
    + done.
  - split_and!.
    + intros Hf%strict_eq_str. congruence.
    + intros Hf%strict_eq_str. congruence.
    + done.
Qed.

(** C8: in every state of the store [getStats] returns, without changing
    the state, [total] the length of [tasks], [completed] the count of the
    completed tasks, [active] the count of the others, and
    [total = completed + active]. *)
Theorem getStats_counts (s : State) :
  exists st,
    getStats s = (Normal st, s)
    /\ total st = length (tasks (this s))
    /\ completed st = Spec.count Spec.done (tasks (this s))
    /\ active st = Spec.count (fun t => negb (Spec.done t)) (tasks (this s))
    /\ total st = (completed st + active st)%nat.
Proof.
  unfold getStats. run_js. eexists. split; [done|]. cbn [total completed active].
  rewrite !filter_length_count.
  split_and!; [done..|]. symmetry. apply (count_split Spec.done).
Qed.

(** C3: for every task, with any id, any text, a boolean flag and a
    creation date that is a valid time value in milliseconds,
    [fromJSON (toJSON t)] is [t] again, in all four fields, the date to the
    millisecond. *)
Theorem fromJSON_toJSON (i tx : JsVal) (b : bool) (ms : Z) (w : World) :
  Z.abs ms <= maxTime ->
  let t := {| TaskModel.id := i; TaskModel.text := tx;
              TaskModel.completed := VBool b; TaskModel.createdAt := VDate (Some ms) |} in
  (json ← TaskModel.toJSON t; TaskModel.fromJSON json) w = (Normal t, w).
Proof.
  intros Hms t. subst t.
  cbv [TaskModel.toJSON TaskModel.fromJSON TaskModel.new mbind JS_bind mret JS_ret eval
       toISOString get_field nullish Date_of time_value].
  cbn [TaskModel.id TaskModel.text TaskModel.completed TaskModel.createdAt].
  change (lookup_last (js "id") _ VUndef) with i.
  change (lookup_last (js "text") _ VUndef) with tx.
  change (lookup_last (js "completed") _ VUndef) with (VBool b).
  change (lookup_last (js "createdAt") _ VUndef) with (VStr (iso_string ms)).
  cbv beta iota. rewrite parse_iso_string by done. done.
Qed.

(** C5, as the code has it: [loadTasks] never lets an exception escape and
    never changes the browser.  Where the persisted blob is rejected by
    [JSON.parse], or holds a value that is no array, or an array with an
    element of which [fromJSON] makes no task (a [null], or an element
    whose [createdAt] is an object or array that [new Date] cannot convert
    to a primitive value), [tasks] is left empty.  Where the blob is missing
    (or is the empty string), the store is left as it was: with [tasks]
    empty when it was just created. *)
Theorem loadTasks_recovers (s : State) :
  fst (loadTasks s) = Normal tt
  /\ world (snd (loadTasks s)) = world s
  /\ (forall blob,
        localStorage (world s) !! js "tasks" = Some blob ->
        blob <> [] ->
        JSON_parse blob = None
        \/ (exists v, JSON_parse blob = Some v /\ Spec.loadable v = false) ->
        tasks (this (snd (loadTasks s))) = [])
  /\ (localStorage (world s) !! js "tasks" = None
      \/ localStorage (world s) !! js "tasks" = Some [] ->
      snd (loadTasks s) = s).
Proof.
  split_and!.
  - destruct (loadTasks_cases s) as [-> | [-> | (? & ? & ? & _ & _ & -> & _)]]; done.
  - destruct (loadTasks_cases s) as [-> | [-> | (? & ? & ? & _ & _ & -> & _)]]; done.
  - intros blob Hblob Hne Hbad. rewrite (loadTasks_resets s blob); done.
  - intros Hblob. rewrite loadTasks_skips; done.
Qed.

(** C6, as the code has it: in every state the store reaches from its
    creation, by any calls and any changes of the browser between them,
    every task has a text that is not empty after trimming, provided that
    each time the persisted blob is loaded (at creation and by [loadTasks])
    the records of the array it holds each have a string [text] that is not
    empty after trimming. *)
Theorem texts_never_blank (s : State) :
  Spec.reachable Spec.blob_texts_ok s ->
  Forall Spec.text_ok (tasks (this s)).
Proof.
  induction 1 as [w Hw | c s _ IH Hload | s w _ IH].
  - apply loadTasks_texts; [done | constructor].
  - destruct c; cbn [Spec.run].
    + apply addTask_texts, IH.
    + apply toggleTask_texts, IH.
    + apply deleteTask_texts, IH.
    + rewrite setFilter_state. exact IH.
    + rewrite getFilteredTasks_pure. exact IH.
    + exact IH.
    + rewrite clearAllTasks_tasks. constructor.
    + apply loadTasks_texts; auto.
  - exact IH.
Qed.

(** X1: [toggleTask] of an id that no task has leaves the store and the
    browser as they were.  It returns [false], unless the id is an object
    or array that cannot be converted to a string: then the warning that
    names the id throws a TypeError out of the method. *)
Theorem toggleTask_unknown (id : JsVal) (s : State) :
  Forall (fun u => has_id id u = false) (tasks (this s)) ->
  snd (toggleTask id s) = s
  /\ fst (toggleTask id s)
     = (if ToPrimitive_throws id then Throw TypeError else Normal false).
Proof.
  intros Hno. rewrite toggleTask_missing; [done|].
  apply list_find_None. eapply Forall_impl; [exact Hno|]. intros u -> [].
Qed.

End Methods.

(** ** Saving *)

Section Saving.

Context `{Engine}.

Lemma state_eta (s : State) : {| this := this s; world := world s |} = s.
Proof. destruct s. done. Qed.

Lemma this_eta (v : t) : {| tasks := tasks v; currentFilter := currentFilter v |} = v.
Proof. destruct v. done. Qed.

Lemma toJSON_dated t w :
  Stored.dated t -> TaskModel.toJSON t w = (Normal (Stored.record t), w).
Proof.
  intros [ms Hms]. unfold TaskModel.toJSON, Stored.record. rewrite Hms. done.
Qed.

Lemma toJSON_undated t w :
  ~ Stored.dated t -> exists e, TaskModel.toJSON t w = (Throw e, w).
Proof.
  intros Hno. unfold TaskModel.toJSON.
  destruct (TaskModel.createdAt t) as [| | | | |[ms|]| |] eqn:Hd; cbn; eauto.
  destruct Hno. exists ms. done.
Qed.

(** Serialising the tasks: all records, or the exception of the first
    task without a valid date; the browser is not touched. *)
Lemma js_mapM_toJSON (ts : list TaskModel.t) w :
  (Forall Stored.dated ts
   /\ js_mapM TaskModel.toJSON ts w = (Normal (map Stored.record ts), w))
  \/ (Exists (fun t => ~ Stored.dated t) ts
      /\ exists e, js_mapM TaskModel.toJSON ts w = (Throw e, w)).
Proof.
  induction ts as [|t ts IH]; [left; split; [constructor|done]|].
  cbn [js_mapM]. unfold mbind, JS_bind.
  assert (Hdec : Stored.dated t \/ ~ Stored.dated t).
  { unfold Stored.dated.
    destruct (TaskModel.createdAt t) as [| | | | |[ms|]| |];
      (left; eexists; reflexivity) || (right; intros [? [=]]). }
  destruct Hdec as [Ht|Ht].
  - rewrite (toJSON_dated t w Ht).
    destruct IH as [[Hts ->] | [Hts [e ->]]].
    + left. split; [constructor; done|done].
    + right. split; [apply Exists_cons_tl; done|eauto].
  - destruct (toJSON_undated t w Ht) as [e ->].
    right. split; [apply Exists_cons_hd; done|eauto].
Qed.

Lemma setItem_fits k v w :
  (N.of_nat (storage_size (<[k := v]> (localStorage w))) <= quota w)%N ->
  setItem k v w
  = (Normal tt,
     {| localStorage := <[k := v]> (localStorage w); quota := quota w;
        setItem_calls := S (setItem_calls w);
        clock := clock w; clock_reads := clock_reads w |}).
Proof. intros Hfits%N.leb_le. unfold setItem. rewrite Hfits. done. Qed.

Lemma setItem_refused k v w :
  ~ (N.of_nat (storage_size (<[k := v]> (localStorage w))) <= quota w)%N ->
  setItem k v w = (Throw QuotaExceededError, Stored.refused w).
Proof.
  intros Hno. unfold setItem.
  destruct (N.leb_spec (N.of_nat (storage_size (<[k := v]> (localStorage w)))) (quota w));
    [done|reflexivity].
Qed.

(** The three ways of [saveTasks]. *)
Lemma saveTasks_undated s :
  Exists (fun t => ~ Stored.dated t) (tasks (this s)) ->
  saveTasks s = (Normal tt, s).
Proof.
  intros Hbad. unfold saveTasks, try_catch. run_js.
  destruct (js_mapM_toJSON (tasks (this s)) (world s)) as [[Hall _] | [_ [e ->]]].
  - exfalso. apply Exists_exists in Hbad as (t & Hin & Ht).
    rewrite Forall_forall in Hall. auto.
  - rewrite state_eta. done.
Qed.

Lemma saveTasks_written s :
  Forall Stored.dated (tasks (this s)) ->
  Stored.fits (world s) (JSON_stringify (VArr (map Stored.record (tasks (this s))))) ->
  saveTasks s
  = (Normal tt,
     {| this := this s;
        world := Stored.written (world s)
                   (JSON_stringify (VArr (map Stored.record (tasks (this s))))) |}).
Proof.
  intros Hall Hfits. unfold saveTasks, try_catch. run_js.
  destruct (js_mapM_toJSON (tasks (this s)) (world s)) as [[_ ->] | [Hbad _]].
  - run_js. rewrite (setItem_fits _ _ _ Hfits). done.
  - exfalso. apply Exists_exists in Hbad as (t & Hin & Ht).
    rewrite Forall_forall in Hall. auto.
Qed.

Lemma saveTasks_refused s :
  Forall Stored.dated (tasks (this s)) ->
  ~ Stored.fits (world s) (JSON_stringify (VArr (map Stored.record (tasks (this s))))) ->
  saveTasks s = (Normal tt, {| this := this s; world := Stored.refused (world s) |}).
Proof.
  intros Hall Hfits. unfold saveTasks, try_catch. run_js.
  destruct (js_mapM_toJSON (tasks (this s)) (world s)) as [[_ ->] | [Hbad _]].
  - run_js. rewrite (setItem_refused _ _ _ Hfits). done.
  - exfalso. apply Exists_exists in Hbad as (t & Hin & Ht).
    rewrite Forall_forall in Hall. auto.
Qed.

Lemma saveTasks_cases s :
  saveTasks s = (Normal tt, s)
  \/ saveTasks s = (Normal tt, {| this := this s; world := Stored.refused (world s) |})
  \/ exists blob,
       saveTasks s = (Normal tt, {| this := this s; world := Stored.written (world s) blob |}).
Proof.
  destruct (js_mapM_toJSON (tasks (this s)) (world s)) as [[Hall _] | [Hbad _]].
  - destruct (decide (N.of_nat (storage_size
        (<[js "tasks" := JSON_stringify (VArr (map Stored.record (tasks (this s))))]>
           (localStorage (world s)))) <= quota (world s))%N) as [Hfits|Hfits].
    + right; right. eexists. apply saveTasks_written; done.
    + right; left. apply saveTasks_refused; done.
  - left. apply saveTasks_undated. done.
Qed.

(** What [saveTasks] leaves alone in the browser. *)
Lemma saveTasks_frame s :
  this (snd (saveTasks s)) = this s
  /\ quota (world (snd (saveTasks s))) = quota (world s)
  /\ clock (world (snd (saveTasks s))) = clock (world s)
  /\ clock_reads (world (snd (saveTasks s))) = clock_reads (world s)
  /\ (forall k, k <> js "tasks" ->
        localStorage (world (snd (saveTasks s))) !! k = localStorage (world s) !! k).
Proof.
  destruct (saveTasks_cases s) as [-> | [-> | [blob ->]]]; cbn [snd this world];
    split_and!; try done.
  intros k Hk. cbn. rewrite lookup_insert_ne; done.
Qed.

(** An accepted text: two readings of the clock, the new task in front,
    and a save. *)
Lemma addTask_saves text s :
  trim text <> [] ->
  addTask text s
  = (Normal true,
     snd (saveTasks
            {| this :=
                 {| tasks :=
                      Stored.created (clock (world s) (clock_reads (world s))) (trim text)
                        false (clock (world s) (S (clock_reads (world s))))
                      :: tasks (this s);
                    currentFilter := currentFilter (this s) |};
               world := Stored.ticked 2 (world s) |})).
Proof.
  intros Htrim.
  assert (Htext : text <> []) by (intros ->; done).
  unfold addTask.
  apply truthy_str in Htrim as ->. apply truthy_str in Htext as ->. cbn [negb orb].
  run_js.
  match goal with |- context [saveTasks ?s0] =>
    change s0 with
      {| this :=
           {| tasks :=
                Stored.created (clock (world s) (clock_reads (world s))) (trim text)
                  false (clock (world s) (S (clock_reads (world s))))
                :: tasks (this s);
              currentFilter := currentFilter (this s) |};
         world := Stored.ticked 2 (world s) |}
  end.
  match goal with |- context [saveTasks ?s0] =>
    destruct (saveTasks_this s0) as [w' ->]
  end.
  done.
Qed.

Lemma has_id_created z text b d : has_id (num_of_Z z) (Stored.created z text b d) = true.
Proof.
  unfold has_id, Stored.created, num_of_Z. cbn. rewrite Z.min_id, Z.sub_diag.
  apply Z.eqb_refl.
Qed.

Lemma has_id_num (a b : Z) text c d :
  has_id (num_of_Z a) (Stored.created b text c d) = (b =? a).
Proof.
  unfold has_id, Stored.created, num_of_Z. cbn. rewrite Z.min_id, Z.sub_diag.
  cbn. rewrite !Z.mul_1_r. done.
Qed.

Lemma count_insert {A} (p : A -> bool) (l : list A) (i : nat) (x y : A) :
  l !! i = Some x ->
  (Spec.count p (<[i := y]> l) + (if p x then 1 else 0)
   = Spec.count p l + (if p y then 1 else 0))%nat.
Proof.
  revert i. induction l as [|z l IH]; intros [|i] Hi; try discriminate.
  - injection Hi as <-. cbn. destruct (p z), (p y); lia.
  - cbn in Hi. change (<[S i := y]> (z :: l)) with (z :: <[i := y]> l).
    cbn [Spec.count]. specialize (IH i Hi). revert IH.
    destruct (p z), (p x), (p y); lia.
Qed.

Lemma filter_split {A} (p : A -> bool) (l : list A) :
  Permutation (List.filter p l ++ List.filter (fun x => negb (p x)) l) l.
Proof.
  induction l as [|x l IH]; cbn; [done|].
  destruct (p x); cbn.
  - constructor. done.
  - rewrite <- Permutation_middle. constructor. done.
Qed.

(** *** Properties of the calls, beyond the claims *)

(** X2: [toggleTask] flips the flag of the first task with the id and of
    no other: every other task, one with the same id too, stays as it is,
    and so do the length of [tasks] and the filter. *)
Theorem toggleTask_flips_first (id : JsVal) (s : State) (i : nat) (task : TaskModel.t) :
  tasks (this s) !! i = Some task ->
  has_id id task = true ->
  (forall j u, tasks (this s) !! j = Some u -> (j < i)%nat -> has_id id u = false) ->
  fst (toggleTask id s) = Normal true
  /\ tasks (this (snd (toggleTask id s))) !! i = Some (toggled task)
  /\ Spec.done (toggled task) = negb (Spec.done task)
  /\ (forall j, j <> i ->
        tasks (this (snd (toggleTask id s))) !! j = tasks (this s) !! j)
  /\ length (tasks (this (snd (toggleTask id s)))) = length (tasks (this s))
  /\ currentFilter (this (snd (toggleTask id s))) = currentFilter (this s).
Proof.
  intros Hi Hid Hfirst.
  assert (Hfind : list_find (fun t => Is_true (has_id id t)) (tasks (this s)) = Some (i, task)).
  { apply list_find_Some. split_and!; [done | rewrite Hid; done |].
    intros j u Hj Hlt. rewrite (Hfirst j u Hj Hlt). intros []. }
  destruct (toggleTask_found id s i task Hfind) as [w ->].
  cbn [fst snd this tasks currentFilter]. split_and!; try done.
  - apply list_lookup_insert_eq. eapply lookup_lt_Some. done.
  - intros j Hj. apply list_lookup_insert_ne. done.
  - apply length_insert.
Qed.

(** X3: after [toggleTask] of an id that a task has, [getStats] reports the
    same total, and one completed task more where the first task with the
    id was active, one less where it was completed. *)
Theorem toggleTask_moves_one (id : JsVal) (s : State) (i : nat) (task : TaskModel.t) :
  tasks (this s) !! i = Some task ->
  has_id id task = true ->
  (forall j u, tasks (this s) !! j = Some u -> (j < i)%nat -> has_id id u = false) ->
  exists before after,
    fst (getStats s) = Normal before
    /\ fst (getStats (snd (toggleTask id s))) = Normal after
    /\ total after = total before
    /\ (completed after + (if Spec.done task then 1 else 0)
        = completed before + (if Spec.done task then 0 else 1))%nat
    /\ (active after + (if Spec.done task then 0 else 1)
        = active before + (if Spec.done task then 1 else 0))%nat.
Proof.
  intros Hi Hid Hfirst.
  assert (Hfind : list_find (fun t => Is_true (has_id id t)) (tasks (this s)) = Some (i, task)).
  { apply list_find_Some. split_and!; [done | rewrite Hid; done |].
    intros j u Hj Hlt. rewrite (Hfirst j u Hj Hlt). intros []. }
  destruct (toggleTask_found id s i task Hfind) as [w ->].
  do 2 eexists. split; [reflexivity|]. split; [reflexivity|].
  cbn [snd this tasks total completed active]. rewrite !filter_length_count.
  pose proof (count_insert Spec.done _ i task (toggled task) Hi) as Hc.
  pose proof (count_insert (fun t => negb (Spec.done t)) _ i task (toggled task) Hi) as Ha.
  assert (Hflip : Spec.done (toggled task) = negb (Spec.done task)) by done.
  cbv beta in Hc, Ha. rewrite Hflip in Hc, Ha. rewrite length_insert.
  unfold Spec.done in *. revert Hc Ha.
  destruct (truthy (TaskModel.completed task)); cbn [negb]; lia.
Qed.

(** X4: an accepted [addTask] raises the total and the active count of
    [getStats] by one and leaves the completed count; the filter stays. *)
Theorem addTask_counts (text : jsstring) (s : State) :
  trim text <> [] ->
  exists before after,
    fst (getStats s) = Normal before
    /\ fst (getStats (snd (addTask text s))) = Normal after
    /\ total after = S (total before)
    /\ active after = S (active before)
    /\ completed after = completed before
    /\ currentFilter (this (snd (addTask text s))) = currentFilter (this s).
Proof.
  intros Htrim. rewrite (addTask_saves text s Htrim). cbn [snd].
  match goal with |- context [saveTasks ?s0] =>
    destruct (saveTasks_this s0) as [w' ->]
  end.
  do 2 eexists. split; [reflexivity|]. split; [reflexivity|]. done.
Qed.

(** X5: [addTask] and then [deleteTask] of the id the new task got remove
    the new task and, with it, every older task with the same id; where no
    older task has the id, [tasks] is as before. *)
Theorem addTask_deleteTask (text : jsstring) (s : State) :
  trim text <> [] ->
  let id := num_of_Z (clock (world s) (clock_reads (world s))) in
  tasks (this (snd (deleteTask id (snd (addTask text s)))))
  = List.filter (fun u => negb (has_id id u)) (tasks (this s))
  /\ (Forall (fun u => has_id id u = false) (tasks (this s)) ->
      tasks (this (snd (deleteTask id (snd (addTask text s))))) = tasks (this s)).
Proof.
  intros Htrim id.
  assert (Hdel : tasks (this (snd (deleteTask id (snd (addTask text s)))))
                 = List.filter (fun u => negb (has_id id u)) (tasks (this s))).
  { destruct (deleteTask_tasks id (snd (addTask text s))) as (_ & -> & _).
    rewrite (addTask_saves text s Htrim). cbn [snd].
    match goal with |- context [saveTasks ?s0] =>
      destruct (saveTasks_this s0) as [w' ->]
    end.
    cbn [snd this tasks List.filter]. subst id. rewrite has_id_created. done. }
  split; [exact Hdel|].
  intros Hfresh. rewrite Hdel. apply filter_none, has_id_negb, Hfresh.
Qed.

(** X6: a second [deleteTask] of the same id changes nothing: not the
    tasks, not the browser, and nothing is written.  It completes, unless
    the id is an object or array that cannot be converted to a string: then
    the warning that names the id throws a TypeError out of the method, the
    state being the same all the same. *)
Theorem deleteTask_again (id : JsVal) (s : State) :
  deleteTask id (snd (deleteTask id s))
  = (if ToPrimitive_throws id then Throw TypeError else Normal tt,
     snd (deleteTask id s)).
Proof.
  apply deleteTask_missing.
  destruct (deleteTask_tasks id s) as (_ & -> & _).
  apply Forall_forall. intros u [_ Hu]%list_elem_of_In%List.filter_In.
  apply negb_true_iff. done.
Qed.

(** The item written takes room: a store with quota 0 takes nothing. *)
Lemma storage_size_insert (k v : jsstring) (m : gmap jsstring jsstring) :
  (length k <= storage_size (<[k := v]> m))%nat.
Proof.
  rewrite <- insert_delete_eq. unfold storage_size.
  rewrite map_fold_insert_L; [lia | intros; lia | apply lookup_delete_eq].
Qed.

Lemma toggleTask_saves id s i task :
  list_find (fun t => Is_true (has_id id t)) (tasks (this s)) = Some (i, task) ->
  toggleTask id s
  = (Normal true,
     snd (saveTasks {| this := {| tasks := <[i := toggled task]> (tasks (this s));
                                  currentFilter := currentFilter (this s) |};
                       world := world s |})).
Proof.
  intros Hfind. unfold toggleTask. run_js. rewrite Hfind. run_js.
  match goal with |- context [saveTasks ?s0] =>
    destruct (saveTasks_this s0) as [w' ->]
  end.
  rewrite console_log_cases.
  apply list_find_Some in Hfind as (_ & Hid%Is_true_true%has_id_prints & _).
  rewrite Hid. done.
Qed.

Lemma deleteTask_saves id s :
  let s' := {| this := {| tasks := List.filter (fun t => negb (has_id id t)) (tasks (this s));
                          currentFilter := currentFilter (this s) |};
               world := world s |} in
  deleteTask id s
  = (if ToPrimitive_throws id then Throw TypeError else Normal tt,
     if (length (tasks (this s')) <? length (tasks (this s)))%nat then snd (saveTasks s')
     else s').
Proof.
  intros s'. unfold deleteTask. run_js. fold s'. cbn [tasks this].
  destruct (_ <? _)%nat.
  - destruct (saveTasks_this s') as [w' ->]. rewrite console_log_cases.
    destruct (ToPrimitive_throws id); done.
  - rewrite console_log_cases. destruct (ToPrimitive_throws id); done.
Qed.

Lemma clearAllTasks_saves s :
  clearAllTasks s
  = (Normal tt,
     snd (saveTasks {| this := {| tasks := []; currentFilter := currentFilter (this s) |};
                       world := world s |})).
Proof.
  unfold clearAllTasks. run_js.
  match goal with |- context [saveTasks ?s0] =>
    destruct (saveTasks_this s0) as [w' ->]
  end.
  done.
Qed.

(** X7: whatever is called, the store leaves the rest of the browser
    alone: the quota, the clock and every localStorage item but ['tasks']
    are as before; only [addTask] reads the clock; and setting the filter,
    reading the tasks or the statistics, and loading write nothing at
    all. *)
Theorem calls_leave_the_browser (c : Spec.call) (s : State) :
  quota (world (Spec.run c s)) = quota (world s)
  /\ clock (world (Spec.run c s)) = clock (world s)
  /\ (forall k, k <> js "tasks" ->
        localStorage (world (Spec.run c s)) !! k = localStorage (world s) !! k)
  /\ ((forall text, c <> Spec.AddTask text) ->
      clock_reads (world (Spec.run c s)) = clock_reads (world s))
  /\ match c with
     | Spec.SetFilter _ | Spec.GetFilteredTasks | Spec.GetStats
     | Spec.LoadFromPersistence => world (Spec.run c s) = world s
     | _ => True
     end.
Proof.
  destruct c as [text|id|id|f| | | |]; cbn [Spec.run].
  - destruct (decide (trim text = [])) as [Hblank|Hne].
    + rewrite addTask_blank by done. split_and!; done.
    + rewrite (addTask_saves text s Hne). cbn [snd].
      match goal with |- context [saveTasks ?s0] =>
        destruct (saveTasks_frame s0) as (_ & -> & -> & _ & Hk)
      end.
      split_and!; try done. intros Hc. destruct (Hc text). done.
  - destruct (list_find (fun t => Is_true (has_id id t)) (tasks (this s)))
      as [[i task]|] eqn:Hfind.
    + rewrite (toggleTask_saves id s i task Hfind). cbn [snd].
      match goal with |- context [saveTasks ?s0] =>
        destruct (saveTasks_frame s0) as (_ & -> & -> & -> & Hk)
      end.
      split_and!; done.
    + rewrite toggleTask_missing by done. split_and!; done.
  - rewrite deleteTask_saves. cbn [snd]. destruct (_ <? _)%nat; [|split_and!; done].
    match goal with |- context [saveTasks ?s0] =>
      destruct (saveTasks_frame s0) as (_ & -> & -> & -> & Hk)
    end.
    split_and!; done.
  - rewrite setFilter_state. split_and!; done.
  - rewrite getFilteredTasks_pure. split_and!; done.
  - split_and!; done.
  - rewrite clearAllTasks_saves. cbn [snd].
    match goal with |- context [saveTasks ?s0] =>
      destruct (saveTasks_frame s0) as (_ & -> & -> & -> & Hk)
    end.
    split_and!; done.
  - destruct (loadTasks_cases s) as [-> | [-> | (? & ? & ? & _ & _ & -> & _)]];
      split_and!; done.
Qed.

(** X8: while a task without a valid date is stored (one loaded from a
    record whose [createdAt] is no date), saving fails before anything is
    written: [saveTasks] leaves everything as it is, and [addTask] and
    [toggleTask] change the tasks in memory and not the persisted items. *)
Theorem invalid_date_stops_saving (text : jsstring) (id : JsVal) (s : State) :
  Exists (fun t => ~ Stored.dated t) (tasks (this s)) ->
  saveTasks s = (Normal tt, s)
  /\ localStorage (world (snd (addTask text s))) = localStorage (world s)
  /\ setItem_calls (world (snd (addTask text s))) = setItem_calls (world s)
  /\ world (snd (toggleTask id s)) = world s.
Proof.
  intros Hbad. split; [apply saveTasks_undated, Hbad|].
  assert (Hadd : world (snd (addTask text s)) = world s
                 \/ world (snd (addTask text s)) = Stored.ticked 2 (world s)).
  { destruct (decide (trim text = [])) as [Hblank|Hne].
    - left. rewrite addTask_blank; done.
    - right. rewrite (addTask_saves text s Hne). cbn [snd].
      rewrite saveTasks_undated; [done|]. cbn [this tasks]. apply Exists_cons_tl, Hbad. }
  split_and!.
  - destruct Hadd as [-> | ->]; done.
  - destruct Hadd as [-> | ->]; done.
  - destruct (list_find (fun t => Is_true (has_id id t)) (tasks (this s)))
      as [[i task]|] eqn:Hfind; [|rewrite toggleTask_missing; done].
    rewrite (toggleTask_saves id s i task Hfind). cbn [snd].
    rewrite saveTasks_undated; [done|]. cbn [this tasks].
    apply list_find_Some in Hfind as (Hi & _).
    apply Exists_exists in Hbad as (u & Hu & Hdate).
    apply list_elem_of_lookup in Hu as [j Hj].
    destruct (decide (j = i)) as [->|Hne].
    + assert (u = task) as -> by congruence.
      apply Exists_exists. exists (toggled task). split.
      * eapply list_elem_of_lookup_2. apply list_lookup_insert_eq.
        eapply lookup_lt_Some. done.
      * exact Hdate.
    + apply Exists_exists. exists u. split; [|done].
      eapply list_elem_of_lookup_2. rewrite list_lookup_insert_ne; done.
Qed.

(** X9: where the storage takes nothing, an accepted [addTask] still
    returns [true] and keeps the new task in memory; the persisted items
    are as before. *)
Theorem addTask_without_room (text : jsstring) (s : State) :
  trim text <> [] ->
  quota (world s) = 0%N ->
  fst (addTask text s) = Normal true
  /\ length (tasks (this (snd (addTask text s)))) = S (length (tasks (this s)))
  /\ localStorage (world (snd (addTask text s))) = localStorage (world s).
Proof.
  intros Htrim Hquota. rewrite (addTask_saves text s Htrim). cbn [fst snd].
  match goal with |- context [saveTasks ?s0] => set (s1 := s0) end.
  destruct (js_mapM_toJSON (tasks (this s1)) (world s1)) as [[Hall _] | [Hbad _]].
  - rewrite saveTasks_refused; [done | done |].
    unfold Stored.fits. subst s1. cbn [world Stored.ticked quota localStorage].
    rewrite Hquota.
    pose proof (storage_size_insert (js "tasks")
      (JSON_stringify (VArr (map Stored.record
         (Stored.created (clock (world s) (clock_reads (world s))) (trim text) false
            (clock (world s) (S (clock_reads (world s)))) :: tasks (this s)))))
      (localStorage (world s))) as Hsize.
    cbn [this tasks]. change (length (js "tasks")) with 5%nat in Hsize. lia.
  - rewrite saveTasks_undated by done. done.
Qed.

(** *** Loading what was saved *)

Lemma fromJSON_task_of r w :
  Spec.dateable r = true -> TaskModel.fromJSON r w = (Normal (Stored.task_of r), w).
Proof.
  unfold Spec.dateable. intros Hr.
  destruct (get_field_cases r) as [[_ Hget] | [_ Hget]];
    [rewrite Hget in Hr; discriminate|].
  destruct (Hget (js "id")) as [i Hi], (Hget (js "text")) as [tx Htx],
    (Hget (js "completed")) as [c Hc], (Hget (js "createdAt")) as [ca Hca].
  rewrite Hca in Hr. apply negb_true_iff in Hr.
  unfold TaskModel.fromJSON, Stored.task_of. rewrite Hi, Htx, Hc, Hca.
  cbv [eval mbind JS_bind mret JS_ret TaskModel.new Date_of]. rewrite Hr. done.
Qed.

Lemma js_mapM_task_of (records : list JsVal) w :
  forallb Spec.dateable records = true ->
  js_mapM TaskModel.fromJSON records w = (Normal (map Stored.task_of records), w).
Proof.
  induction records as [|r records IH]; cbn [forallb js_mapM map]; [done|].
  intros [Hr Hrest]%andb_prop.
  unfold mbind, JS_bind. rewrite (fromJSON_task_of r w Hr), (IH Hrest). done.
Qed.

(** What [toJSON] returns is read back: its [createdAt] is a string. *)
Lemma dateable_record t : Spec.dateable (Stored.record t) = true.
Proof.
  unfold Spec.dateable, Stored.record, get_field. cbn [nullish].
  match goal with |- context [lookup_last _ [_; _; _; (_, ?d)] _] =>
    change (lookup_last (js "createdAt") _ VUndef) with d
  end.
  destruct (TaskModel.createdAt t) as [| | | | |[ms|]| |]; done.
Qed.

(** An accepted array replaces the tasks, record by record. *)
Lemma loadTasks_maps s blob records :
  localStorage (world s) !! js "tasks" = Some blob ->
  blob <> [] ->
  JSON_parse blob = Some (VArr records) ->
  Spec.loadable (VArr records) = true ->
  loadTasks s
  = (Normal tt,
     {| this := {| tasks := map Stored.task_of records;
                   currentFilter := currentFilter (this s) |};
        world := world s |}).
Proof.
  intros Hblob Hne%truthy_str Hparse Hv.
  unfold loadTasks, try_catch, getItem. run_js. rewrite Hblob, Hne.
  unfold JSON_parse_js. rewrite Hparse. cbv [mret JS_ret]. unfold Array_map.
  run_js. rewrite (js_mapM_task_of records (world s) Hv). done.
Qed.

Lemma loadTasks_outcomes s :
  tasks (this (snd (loadTasks s))) = tasks (this s)
  \/ tasks (this (snd (loadTasks s))) = []
  \/ exists records, tasks (this (snd (loadTasks s))) = map Stored.task_of records.
Proof.
  destruct (loadTasks_cases s) as [-> | [-> | (blob & records & ? & Hb & Hp & _ & _)]];
    [left; done | right; left; done |].
  destruct (decide (blob = [])) as [->|Hne].
  { left. rewrite loadTasks_skips; auto. }
  destruct (Spec.loadable (VArr records)) eqn:Hv.
  - right; right. exists records. rewrite (loadTasks_maps s blob records); done.
  - right; left. rewrite (loadTasks_resets s blob); eauto.
Qed.

Lemma task_of_record t :
  Stored.storable t -> Stored.task_of (Stored.record t) = t.
Proof.
  intros [Hc (ms & Hd & Hms)]. destruct t as [i tx c d]. cbn in *. subst d.
  cbv [Stored.task_of Stored.record get_field nullish time_value].
  cbn [TaskModel.id TaskModel.text TaskModel.completed TaskModel.createdAt].
  change (lookup_last (js "id") _ VUndef) with i.
  change (lookup_last (js "text") _ VUndef) with tx.
  change (lookup_last (js "completed") _ VUndef) with c.
  change (lookup_last (js "createdAt") _ VUndef) with (VStr (iso_string ms)).
  cbv beta iota zeta. rewrite parse_iso_string by done.
  destruct c; done.
Qed.

Lemma storable_dated t : Stored.storable t -> Stored.dated t.
Proof. intros [_ (ms & Hd & _)]. exists ms. done. Qed.

(** X10: a store whose tasks have a defined flag and a valid date is
    saved, the blob fitting the storage and the engine reading back the
    JSON text it wrote; a view model created afterwards over the same
    browser holds the same tasks, field by field and in the same order. *)
Theorem saved_tasks_come_back (s : State) :
  Forall Stored.storable (tasks (this s)) ->
  let json := VArr (map Stored.record (tasks (this s))) in
  Stored.fits (world s) (JSON_stringify json) ->
  JSON_stringify json <> [] ->
  JSON_parse (JSON_stringify json) = Some json ->
  fst (TaskViewModel.new (world (snd (saveTasks s)))) = Normal tt
  /\ tasks (this (snd (TaskViewModel.new (world (snd (saveTasks s)))))) = tasks (this s).
Proof.
  intros Hok json Hfits Hne Hparse.
  rewrite saveTasks_written;
    [| eapply Forall_impl; [exact Hok | apply storable_dated] | exact Hfits].
  cbn [snd world]. unfold TaskViewModel.new.
  rewrite (loadTasks_maps _ (JSON_stringify json) (map Stored.record (tasks (this s)))).
  - cbn [fst snd this tasks]. split; [done|].
    rewrite map_map. clear -Hok.
    induction Hok as [|t ts Ht _ IH]; cbn [map]; [done|].
    rewrite (task_of_record t Ht), IH. done.
  - cbn. apply lookup_insert_eq.
  - exact Hne.
  - exact Hparse.
  - cbn [Spec.loadable]. apply forallb_forall. intros r (t & <- & _)%in_map_iff.
    apply dateable_record.
Qed.

(** X11: [loadTasks] on an array takes all of it or nothing.  Where every
    element is one [fromJSON] makes a task of (it is not [null], and its
    [createdAt] is not an object or array whose conversion to a primitive
    value throws), the tasks are the elements' tasks: one per element, in
    the order of the array, a missing flag read as [false], whatever else
    the element holds.  Where one element is not, [tasks] is left empty.
    Either way the tasks held before are dropped, the call completes, and
    the filter and the browser stay. *)
Theorem loadTasks_takes_every_record (s : State) (blob : jsstring) (records : list JsVal) :
  localStorage (world s) !! js "tasks" = Some blob ->
  blob <> [] ->
  JSON_parse blob = Some (VArr records) ->
  fst (loadTasks s) = Normal tt
  /\ tasks (this (snd (loadTasks s)))
     = (if forallb Spec.dateable records then map Stored.task_of records else [])
  /\ (forallb Spec.dateable records = true ->
      length (tasks (this (snd (loadTasks s)))) = length records)
  /\ currentFilter (this (snd (loadTasks s))) = currentFilter (this s)
  /\ world (snd (loadTasks s)) = world s.
Proof.
  intros Hblob Hne Hparse. destruct (forallb Spec.dateable records) eqn:Hv.
  - rewrite (loadTasks_maps s blob records) by done.
    cbn [fst snd this tasks currentFilter world]. rewrite length_map. done.
  - rewrite (loadTasks_resets s blob); [| done | done | right; eauto].
    cbn [fst snd this tasks currentFilter world]. done.
Qed.

(** *** The shape of the stored tasks *)

Lemma shaped_task_of r : Stored.shaped (Stored.task_of r).
Proof.
  unfold Stored.shaped, Stored.task_of. cbv zeta.
  cbn [TaskModel.completed TaskModel.createdAt]. split; [|eauto].
  match goal with |- match ?c with _ => _ end <> _ => destruct c; discriminate end.
Qed.

Lemma shaped_toggled t : Stored.shaped t -> Stored.shaped (toggled t).
Proof. intros [_ Hd]. split; [done|exact Hd]. Qed.

(** X12: whatever blob is loaded and whatever is called, every stored task
    has a flag that is not [undefined] and a Date object as its date. *)
Theorem tasks_keep_their_shape (s : State) :
  Spec.reachable (fun _ => True) s ->
  Forall Stored.shaped (tasks (this s)).
Proof.
  assert (Hload : forall s0, Forall Stored.shaped (tasks (this s0)) ->
                             Forall Stored.shaped (tasks (this (snd (loadTasks s0))))).
  { intros s0 Hs0. destruct (loadTasks_outcomes s0) as [-> | [-> | [records ->]]];
      [done | constructor |].
    apply Forall_forall. intros t (r & <- & _)%list_elem_of_In%in_map_iff.
    apply shaped_task_of. }
  induction 1 as [w _ | c s _ IH _ | s w _ IH].
  - apply Hload. constructor.
  - destruct c as [text|id|id|f| | | |]; cbn [Spec.run].
    + destruct (decide (trim text = [])) as [Hblank|Hne].
      * rewrite addTask_blank; done.
      * destruct (addTask_pushes text s Hne) as (w & ->). cbn [snd this tasks].
        constructor; [|done]. split; [done|eauto].
    + destruct (list_find (fun t => Is_true (has_id id t)) (tasks (this s)))
        as [[i t]|] eqn:Hfind; [|rewrite toggleTask_missing; done].
      destruct (toggleTask_found id s i t Hfind) as [w ->]. cbn [snd this tasks].
      apply Forall_insert; [done|]. apply shaped_toggled.
      apply list_find_Some in Hfind as (Hi%list_elem_of_lookup_2 & _).
      rewrite Forall_forall in IH. auto.
    + destruct (deleteTask_tasks id s) as (_ & -> & _).
      rewrite Forall_forall in *. intros t [Ht _]%list_elem_of_In%List.filter_In.
      apply IH, list_elem_of_In. done.
    + rewrite setFilter_state. exact IH.
    + rewrite getFilteredTasks_pure. exact IH.
    + exact IH.
    + rewrite clearAllTasks_tasks. constructor.
    + apply Hload, IH.
  - exact IH.
Qed.

(** *** Clearing and filtering *)

(** X13: [clearAllTasks] empties the store whatever it held, also tasks
    that could not be saved: afterwards the statistics are 0, 0, 0, no
    filter shows a task, the filter is as before, and where the storage has
    room the persisted blob is the JSON text of the empty array. *)
Theorem clearAllTasks_empties (s : State) :
  fst (clearAllTasks s) = Normal tt
  /\ tasks (this (snd (clearAllTasks s))) = []
  /\ currentFilter (this (snd (clearAllTasks s))) = currentFilter (this s)
  /\ fst (getStats (snd (clearAllTasks s)))
     = Normal {| total := 0; completed := 0; active := 0 |}
  /\ fst (getFilteredTasks (snd (clearAllTasks s))) = Normal []
  /\ (Stored.fits (world s) (JSON_stringify (VArr [])) ->
      localStorage (world (snd (clearAllTasks s))) !! js "tasks"
      = Some (JSON_stringify (VArr []))).
Proof.
  rewrite clearAllTasks_saves. cbn [fst snd].
  set (s0 := {| this := _; world := world s |}).
  assert (Hthis : this (snd (saveTasks s0)) = this s0)
    by (destruct (saveTasks_this s0) as [w ->]; done).
  split_and!; try done; try (rewrite Hthis; done).
  - unfold getStats, get_tasks. run_js. rewrite Hthis. done.
  - rewrite getFilteredTasks_pure. cbn [fst]. rewrite Hthis. cbn [s0 this tasks List.filter].
    repeat destruct (strict_eq _ _); done.
  - intros Hfits. rewrite saveTasks_written; [| constructor | exact Hfits].
    cbn. apply lookup_insert_eq.
Qed.

(** X14: the two filters split the tasks: what [getFilteredTasks] returns
    under ['completed'] and under ['active'] is, taken together, a
    rearrangement of [tasks], and the two lengths are the completed and the
    active count of [getStats]. *)
Theorem filters_split_the_tasks (s : State) :
  exists done_tasks open_tasks st,
    fst (getFilteredTasks (snd (setFilter (VStr (js "completed")) s))) = Normal done_tasks
    /\ fst (getFilteredTasks (snd (setFilter (VStr (js "active")) s))) = Normal open_tasks
    /\ fst (getStats s) = Normal st
    /\ length done_tasks = completed st
    /\ length open_tasks = active st
    /\ Permutation (done_tasks ++ open_tasks) (tasks (this s)).
Proof.
  do 3 eexists. rewrite !getFilteredTasks_pure. cbn [fst snd].
  unfold setFilter, set_currentFilter. cbn [snd this currentFilter tasks].
  change (strict_eq (VStr (js "completed")) (VStr (js "active"))) with false.
  change (strict_eq (VStr (js "completed")) (VStr (js "completed"))) with true.
  change (strict_eq (VStr (js "active")) (VStr (js "active"))) with true.
  cbv iota. split_and!; [reflexivity | reflexivity | reflexivity | done | done |].
  apply (filter_split Spec.done).
Qed.

End Saving.

(** ** The age of a task (TaskView.formatTime) *)

Lemma formatTime_reads_clock (date : option Z) (w : World) :
  Z.abs (clock w (clock_reads w)) <= maxTime ->
  TaskView.formatTime date w
  = (Normal
       (let diff := TaskView.num_sub (Some (clock w (clock_reads w))) date in
        if TaskView.num_lt (TaskView.floor_div diff 60000) 1 then js "Gerade eben"
        else if TaskView.num_lt (TaskView.floor_div diff 60000) 60 then
          js "vor " ++ TaskView.template (TaskView.floor_div diff 60000) ++ js "min"
        else if TaskView.num_lt (TaskView.floor_div diff 3600000) 24 then
          js "vor " ++ TaskView.template (TaskView.floor_div diff 3600000) ++ js "h"
        else js "vor " ++ TaskView.template (TaskView.floor_div diff 86400000) ++ js "d"),
     Stored.ticked 1 w).
Proof.
  intros Hnow. unfold TaskView.formatTime, Date_new, Date_now.
  cbv [mbind JS_bind mret JS_ret]. unfold TimeClip.
  destruct (Z.leb_spec (Z.abs (clock w (clock_reads w))) maxTime); [|lia].
  cbv zeta. repeat destruct (TaskView.num_lt _ _); done.
Qed.

(** X15: [formatTime], the clock showing a valid time [now], answers by
    the age [now - date] of a valid date: under a minute (a date in the
    future too) "Gerade eben"; under an hour the whole minutes, 1 to 59;
    under a day the whole hours, 1 to 23; from a day on the whole days (for
    ages up to 2^53 ms, where the difference of the two time values is
    exact); and for an invalid date "vor NaNd".  It reads the clock once and
    changes nothing else. *)
Theorem formatTime_by_age (date : Z) (w : World) :
  let now := clock w (clock_reads w) in
  let age := now - date in
  Z.abs now <= maxTime ->
  Z.abs date <= maxTime ->
  snd (TaskView.formatTime (Some date) w) = Stored.ticked 1 w
  /\ (age < 60000 ->
      fst (TaskView.formatTime (Some date) w) = Normal (js "Gerade eben"))
  /\ (60000 <= age < 3600000 ->
      fst (TaskView.formatTime (Some date) w)
      = Normal (js "vor " ++ TaskView.template (Some (age / 60000)) ++ js "min")
      /\ 1 <= age / 60000 <= 59)
  /\ (3600000 <= age < 86400000 ->
      fst (TaskView.formatTime (Some date) w)
      = Normal (js "vor " ++ TaskView.template (Some (age / 3600000)) ++ js "h")
      /\ 1 <= age / 3600000 <= 23)
  /\ (86400000 <= age <= 2 ^ 53 ->
      fst (TaskView.formatTime (Some date) w)
      = Normal (js "vor " ++ TaskView.template (Some (age / 86400000)) ++ js "d")
      /\ 1 <= age / 86400000)
  /\ fst (TaskView.formatTime None w) = Normal (js "vor NaNd").
Proof.
  intros now age Hnow _. rewrite !formatTime_reads_clock by exact Hnow.
  cbn [fst snd]. fold now. cbn [TaskView.num_sub TaskView.floor_div TaskView.num_lt].
  fold age. cbv zeta. split; [done|].
  split_and!.
  - intros Hage. destruct (Z.ltb_spec (age / 60000) 1) as [_|Hm]; [done|]. zdiv.
  - intros Hage.
    destruct (Z.ltb_spec (age / 60000) 1) as [Hm|_]; [zdiv|].
    destruct (Z.ltb_spec (age / 60000) 60) as [_|Hm]; [|zdiv].
    split; [done|zdiv].
  - intros Hage.
    destruct (Z.ltb_spec (age / 60000) 1) as [Hm|_]; [zdiv|].
    destruct (Z.ltb_spec (age / 60000) 60) as [Hm|_]; [zdiv|].
    destruct (Z.ltb_spec (age / 3600000) 24) as [_|Hm]; [|zdiv].
    split; [done|zdiv].
  - intros Hage.
    destruct (Z.ltb_spec (age / 60000) 1) as [Hm|_]; [zdiv|].
    destruct (Z.ltb_spec (age / 60000) 60) as [Hm|_]; [zdiv|].
    destruct (Z.ltb_spec (age / 3600000) 24) as [Hm|_]; [zdiv|].
    split; [done|zdiv].
  - reflexivity.
Qed.

(** ** The demo data (window.debug.addDemoData) *)

Section Demo.

Context `{Engine}.

Lemma addTask_step text s :
  trim text <> [] ->
  exists s',
    addTask text s = (Normal true, s')
    /\ tasks (this s')
       = Stored.created (clock (world s) (clock_reads (world s))) (trim text) false
           (clock (world s) (S (clock_reads (world s))))
         :: tasks (this s)
    /\ currentFilter (this s') = currentFilter (this s)
    /\ clock (world s') = clock (world s)
    /\ clock_reads (world s') = (2 + clock_reads (world s))%nat.
Proof.
  intros Htrim. eexists. split; [apply addTask_saves, Htrim|].
  match goal with |- context [saveTasks ?s0] =>
    destruct (saveTasks_frame s0) as (-> & _ & -> & -> & _)
  end.
  done.
Qed.

(** X16: the calls [addDemoData] makes on the view model always complete
    and put the four demo tasks in front of the tasks, the last added
    first, their ids and dates being the eight readings of the clock in
    turn.  It then toggles by the id of
    [tasks[1]], the third demo task: that task is the completed one if the
    last two ids differ; if the clock gave the last two tasks the same id,
    the task completed is [tasks[0]], the fourth, and the third stays
    open. *)
Theorem addDemoData_adds_four (s : State) :
  let c (n : nat) := clock (world s) (n + clock_reads (world s)) in
  fst (App.addDemoData s) = Normal tt
  /\ tasks (this (snd (App.addDemoData s)))
     = [ Stored.created (c 6%nat) App.demo_4 (c 6%nat =? c 4%nat) (c 7%nat);
         Stored.created (c 4%nat) App.demo_3 (negb (c 6%nat =? c 4%nat)) (c 5%nat);
         Stored.created (c 2%nat) App.demo_2 false (c 3%nat);
         Stored.created (c 0%nat) App.demo_1 false (c 1%nat) ]
       ++ tasks (this s)
  /\ currentFilter (this (snd (App.addDemoData s))) = currentFilter (this s).
Proof.
  intros c. unfold App.addDemoData, App.tasks_at, get_tasks.
  destruct (addTask_step App.demo_1 s) as (s1 & E1 & T1 & F1 & C1 & R1); [done|].
  destruct (addTask_step App.demo_2 s1) as (s2 & E2 & T2 & F2 & C2 & R2); [done|].
  destruct (addTask_step App.demo_3 s2) as (s3 & E3 & T3 & F3 & C3 & R3); [done|].
  destruct (addTask_step App.demo_4 s3) as (s4 & E4 & T4 & F4 & C4 & R4); [done|].
  cbv [mbind JS_bind mret JS_ret]. rewrite E1, E2, E3, E4. cbn [fst snd].
  rewrite C3, C2, C1, R3, R2, R1 in T4.
  rewrite C2, C1, R2, R1 in T3.
  rewrite C1, R1 in T2.
  rewrite T3, T2, T1 in T4. clear T1 T2 T3 E1 E2 E3 E4.
  change (trim App.demo_1) with App.demo_1 in T4.
  change (trim App.demo_2) with App.demo_2 in T4.
  change (trim App.demo_3) with App.demo_3 in T4.
  change (trim App.demo_4) with App.demo_4 in T4.
  change (clock (world s) (clock_reads (world s))) with (c 0%nat) in T4.
  change (clock (world s) (S (clock_reads (world s)))) with (c 1%nat) in T4.
  change (clock (world s) (2 + clock_reads (world s))) with (c 2%nat) in T4.
  change (clock (world s) (S (2 + clock_reads (world s)))) with (c 3%nat) in T4.
  change (clock (world s) (2 + (2 + clock_reads (world s)))) with (c 4%nat) in T4.
  change (clock (world s) (S (2 + (2 + clock_reads (world s))))) with (c 5%nat) in T4.
  change (clock (world s) (2 + (2 + (2 + clock_reads (world s))))) with (c 6%nat) in T4.
  change (clock (world s) (S (2 + (2 + (2 + clock_reads (world s)))))) with (c 7%nat) in T4.
  rewrite T4. cbn [lookup list_lookup]. cbn [Stored.created TaskModel.id].
  set (t4 := Stored.created (c 6%nat) App.demo_4 false (c 7%nat)) in *.
  set (t3 := Stored.created (c 4%nat) App.demo_3 false (c 5%nat)) in *.
  destruct (Z.eqb_spec (c 6%nat) (c 4%nat)) as [Heq|Hne].
  - rewrite (toggleTask_saves (num_of_Z (c 4%nat)) s4 0 t4).
    2:{ rewrite T4. cbn [list_find]. unfold t4. rewrite decide_True; [done|].
        rewrite has_id_num. apply Is_true_true, Z.eqb_eq, Heq. }
    cbn [fst snd].
    match goal with |- context [saveTasks ?s0] =>
      destruct (saveTasks_frame s0) as (-> & _)
    end.
    cbn [this tasks currentFilter]. rewrite T4, F4, F3, F2, F1. done.
  - rewrite (toggleTask_saves (num_of_Z (c 4%nat)) s4 1 t3).
    2:{ rewrite T4. cbn [list_find]. unfold t4, t3. rewrite decide_False.
        2:{ rewrite has_id_num. intros Hid. apply Is_true_true, Z.eqb_eq in Hid. done. }
        cbn [list_find fmap option_fmap option_map prod_map fst snd].
        rewrite decide_True; [done|].
        rewrite has_id_num. apply Is_true_true, Z.eqb_eq. done. }
    cbn [fst snd].
    match goal with |- context [saveTasks ?s0] =>
      destruct (saveTasks_frame s0) as (-> & _)
    end.
    cbn [this tasks currentFilter]. rewrite T4, F4, F3, F2, F1. done.
Qed.

End Demo.

(** ** The claims on concrete stores *)

#[local] Existing Instance Reference.engine.

(** A text with blanks around it, added to a store that holds a task. *)
Lemma addTask_accepts_witness :
  let text := js "  Buy milk " in
  let s := Scenario.state [Scenario.task 1 "old" true 0] "all" (Scenario.browser None) in
  trim text <> []
  /\ (fst (addTask text s) = Normal true
      /\ length (tasks (this (snd (addTask text s)))) = S (length (tasks (this s)))
      /\ exists task,
           tasks (this (snd (addTask text s))) = task :: tasks (this s)
           /\ TaskModel.completed task = VBool false
           /\ TaskModel.text task = VStr (trim text)).
Proof.
  cbv zeta. split; [vm_compute; discriminate|].
  apply addTask_accepts. vm_compute. discriminate.
Defined.

(** A space, a tab, a no-break space and an ideographic space. *)
Lemma addTask_rejects_witness :
  let text := [0x20; 0x09; 0xA0; 0x3000]%N in
  let s := Scenario.state [Scenario.task 1 "old" true 0] "all" (Scenario.browser None) in
  forallb is_ws text = true /\ addTask text s = (Normal false, s).
Proof.
  cbv zeta. split; [reflexivity|]. apply addTask_rejects. reflexivity.
Defined.

(** C2: the code at an input where it leaves the claim.  Two tasks added
    within one millisecond get the same id, although an id is meant to name
    one task; [deleteTask] of that id then removes both and leaves [tasks]
    empty, where the claim has the first one removed, the length down by
    exactly one, and the other task kept. *)
Lemma deleteTask_removes_duplicates :
  let s0 := snd (TaskViewModel.new Scenario.fast_browser) in
  let s := snd (addTask (js "b") (snd (addTask (js "a") s0))) in
  let id := num_of_Z 1700000000000 in
  map TaskModel.text (tasks (this s)) = [VStr (js "b"); VStr (js "a")]
  /\ map TaskModel.id (tasks (this s)) = [id; id]
  /\ tasks (this (snd (deleteTask id s))) = []
  /\ map TaskModel.text (Spec.remove_first (has_id id) (tasks (this s))) = [VStr (js "a")]
  /\ length (tasks (this (snd (deleteTask id s)))) <> (length (tasks (this s)) - 1)%nat.
Proof. vm_compute. split_and!; done. Qed.

(** A store without the id 7, over a browser that holds a blob. *)
Lemma deleteTask_missing_no_write_witness :
  let s := Scenario.state [Scenario.task 1 "a" false 0] "all"
             (Scenario.browser (Some (js "[]"))) in
  Forall (fun u => has_id (num_of_Z 7) u = false) (tasks (this s))
  /\ (world (snd (deleteTask (num_of_Z 7) s)) = world s
      /\ localStorage (world (snd (deleteTask (num_of_Z 7) s))) = localStorage (world s)
      /\ setItem_calls (world (snd (deleteTask (num_of_Z 7) s))) = setItem_calls (world s)).
Proof.
  cbv zeta.
  assert (Hno : Forall (fun u => has_id (num_of_Z 7) u = false) [Scenario.task 1 "a" false 0])
    by (repeat constructor).
  split; [exact Hno|]. apply deleteTask_missing_no_write. exact Hno.
Defined.



(** An active and a completed task under the filter ['active']. *)
Lemma getFilteredTasks_selects_witness :
  let t1 := Scenario.task 1 "a" false 0 in
  let t2 := Scenario.task 2 "b" true 0 in
  let s := Scenario.state [t1; t2] "active" (Scenario.browser None) in
  getFilteredTasks s = (Normal [t1], s)
  /\ Spec.selection (fun t => negb (Spec.done t)) (tasks (this s)) [t1].
Proof.
  cbv zeta.
  destruct (getFilteredTasks_selects
              (Scenario.state [Scenario.task 1 "a" false 0; Scenario.task 2 "b" true 0]
                 "active" (Scenario.browser None))) as (r & Hrun & Hactive & _).
  assert (Hr : r = [Scenario.task 1 "a" false 0]).
  { assert (Hfst : fst (getFilteredTasks
              (Scenario.state [Scenario.task 1 "a" false 0; Scenario.task 2 "b" true 0]
                 "active" (Scenario.browser None))) = Normal r) by (rewrite Hrun; reflexivity).
    vm_compute in Hfst. injection Hfst as <-. reflexivity. }
  subst r. split; [exact Hrun|]. apply Hactive. reflexivity.
Defined.

(** A task created at 2023-11-14T22:13:20.123Z. *)
Lemma fromJSON_toJSON_witness :
  let t := Scenario.task 1700000000000 "Buy milk" true 1700000000123 in
  Z.abs 1700000000123 <= maxTime
  /\ (json ← TaskModel.toJSON t; TaskModel.fromJSON json) (Scenario.browser None)
     = (Normal t, Scenario.browser None).
Proof.
  cbv zeta. split; [vm_compute; discriminate|].
  apply (fromJSON_toJSON (num_of_Z 1700000000000) (VStr (js "Buy milk")) true 1700000000123).
  vm_compute. discriminate.
Defined.

(** C5 as stated fails on a blob that is JSON, and an array, but not of
    task records: ["[1]"] is loaded as one task without id and text. *)
Lemma loadTasks_keeps_foreign_array :
  let w := Scenario.browser (Some (js "[1]")) in
  Spec.expected_blob (js "[1]") = false
  /\ fst (TaskViewModel.new w) = Normal tt
  /\ tasks (this (snd (TaskViewModel.new w)))
     = [{| TaskModel.id := VUndef; TaskModel.text := VUndef;
           TaskModel.completed := VBool false; TaskModel.createdAt := VDate None |}].
Proof. cbv zeta. split_and!; vm_compute; reflexivity. Qed.

(** Text that is no JSON, an object, and an array with a [null]: each
    resets the store; a missing blob leaves it. *)
Lemma loadTasks_recovers_witness :
  let old := [Scenario.task 1 "old" false 0] in
  let s blob := Scenario.state old "all" (Scenario.browser blob) in
  tasks (this (snd (loadTasks (s (Some (js "not json")))))) = []
  /\ tasks (this (snd (loadTasks (s (Some (js "{}")))))) = []
  /\ tasks (this (snd (loadTasks (s (Some (js "[null]")))))) = []
  /\ snd (loadTasks (s None)) = s None.
Proof.
  cbv zeta. split_and!.
  - apply (proj1 (proj2 (proj2 (loadTasks_recovers _))) (js "not json"));
      [vm_compute; reflexivity | discriminate | left; vm_compute; reflexivity].
  - apply (proj1 (proj2 (proj2 (loadTasks_recovers _))) (js "{}"));
      [vm_compute; reflexivity | discriminate
      | right; exists (VObj []); split; vm_compute; reflexivity].
  - apply (proj1 (proj2 (proj2 (loadTasks_recovers _))) (js "[null]"));
      [vm_compute; reflexivity | discriminate
      | right; exists (VArr [VNull]); split; vm_compute; reflexivity].
  - apply (proj2 (proj2 (proj2 (loadTasks_recovers _)))). left. vm_compute. reflexivity.
Defined.

(** C6 as stated fails on a persisted record whose text is blank: the
    blob is the expected array of task records, and the store created
    over it holds a task with the text of two spaces. *)
Lemma blank_text_is_loaded :
  let blob := Scenario.json_text
    "[{'id':1,'text':'  ','completed':false,'createdAt':'2023-11-14T22:13:20.000Z'}]" in
  let s := snd (TaskViewModel.new (Scenario.browser (Some blob))) in
  Spec.expected_blob blob = true
  /\ Spec.reachable (fun _ => True) s
  /\ tasks (this s) = [Scenario.task 1 "  " false 1700000000000]
  /\ trim (js "  ") = []
  /\ ~ Forall Spec.text_ok (tasks (this s)).
Proof.
  cbv zeta.
  match goal with |- _ /\ _ /\ ?ts = _ /\ _ =>
    assert (Hts : ts = [Scenario.task 1 "  " false 1700000000000])
      by (vm_compute; reflexivity)
  end.
  split_and!; [vm_compute; reflexivity | apply Spec.reach_new; exact I | exact Hts
              | reflexivity |].
  rewrite Hts. intros [Hbad _]%Forall_cons. exact Hbad.
Qed.

(** A store created over a saved task, and a task added to it. *)
Lemma texts_never_blank_witness :
  let blob := Scenario.json_text
    "[{'id':1,'text':'Buy milk','completed':false,'createdAt':'2023-11-14T22:13:20.000Z'}]" in
  let s := Spec.run (Spec.AddTask (js " Call home "))
             (snd (TaskViewModel.new (Scenario.browser (Some blob)))) in
  Spec.reachable Spec.blob_texts_ok s /\ Forall Spec.text_ok (tasks (this s)).
Proof.
  cbv zeta.
  match goal with |- ?R /\ _ => assert (Hreach : R) end.
  { apply Spec.reach_call; [|discriminate]. apply Spec.reach_new.
    vm_compute. exact I. }
  split; [exact Hreach|]. apply texts_never_blank. exact Hreach.
Defined.

(** A store without the id 7, and without an id that is an object: the
    number is not found, the object with a property [toString] cannot even
    be named in the warning. *)
Lemma toggleTask_unknown_witness :
  let s := Scenario.state [Scenario.task 1 "a" false 0] "all" (Scenario.browser None) in
  let object := VObj [(js "toString", num_of_Z 1)] in
  Forall (fun u => has_id (num_of_Z 7) u = false) (tasks (this s))
  /\ toggleTask (num_of_Z 7) s = (Normal false, s)
  /\ Forall (fun u => has_id object u = false) (tasks (this s))
  /\ toggleTask object s = (Throw TypeError, s).
Proof.
  cbv zeta.
  assert (Hno : forall id, has_id id (Scenario.task 1 "a" false 0) = false ->
                Forall (fun u => has_id id u = false) [Scenario.task 1 "a" false 0])
    by (intros id Hid; repeat constructor; exact Hid).
  pose proof (Hno (num_of_Z 7) eq_refl) as Hno7.
  pose proof (Hno (VObj [(js "toString", num_of_Z 1)]) eq_refl) as Hnoo.
  pose proof (toggleTask_unknown (num_of_Z 7)
                (Scenario.state [Scenario.task 1 "a" false 0] "all" (Scenario.browser None))
                Hno7) as [Hs7 Hr7].
  pose proof (toggleTask_unknown (VObj [(js "toString", num_of_Z 1)])
                (Scenario.state [Scenario.task 1 "a" false 0] "all" (Scenario.browser None))
                Hnoo) as [Hso Hro].
  split_and!; [exact Hno7 | | exact Hnoo |].
  - rewrite (surjective_pairing (toggleTask _ _)), Hs7, Hr7. reflexivity.
  - rewrite (surjective_pairing (toggleTask _ _)), Hso, Hro. reflexivity.
Defined.

(** ** Scenarios *)

(** From the empty store, adding "Buy milk" gives the statistics
    1, 0, 1; adding blanks is refused and changes nothing; toggling the task
    gives 1, 1, 0; deleting it gives 0, 0, 0. *)
Example end_to_end :
  let s0 := snd (TaskViewModel.new (Scenario.browser None)) in
  let r1 := addTask (js "Buy milk") s0 in
  let r2 := addTask (js "  ") (snd r1) in
  let id := num_of_Z 1700000000000 in
  let r3 := toggleTask id (snd r2) in
  let r4 := deleteTask id (snd r3) in
  tasks (this s0) = []
  /\ fst r1 = Normal true
  /\ map TaskModel.id (tasks (this (snd r1))) = [id]
  /\ fst (getStats (snd r1)) = Normal {| total := 1; completed := 0; active := 1 |}
  /\ fst r2 = Normal false
  /\ fst (getStats (snd r2)) = Normal {| total := 1; completed := 0; active := 1 |}
  /\ fst r3 = Normal true
  /\ fst (getStats (snd r3)) = Normal {| total := 1; completed := 1; active := 0 |}
  /\ fst r4 = Normal tt
  /\ fst (getStats (snd r4)) = Normal {| total := 0; completed := 0; active := 0 |}.
Proof. cbv zeta. split_and!; vm_compute; reflexivity. Qed.

(** A store with two tasks, one of them completed and one with a
    quote, a backslash and a line feed in its text, is saved; a new store
    created over the same browser holds the same tasks, field by field and
    in the same order. *)
Example saved_tasks_are_loaded :
  let s0 := snd (TaskViewModel.new (Scenario.browser None)) in
  let s1 := snd (addTask (js "Buy milk") s0) in
  let s2 := snd (addTask (js "Call " ++ [0x22; 0x5C; 0x0A; 0x41]%N) s1) in
  let s3 := snd (toggleTask (num_of_Z 1700000000000) s2) in
  let s' := snd (TaskViewModel.new (world s3)) in
  map Spec.done (tasks (this s3)) = [false; true]
  /\ tasks (this s') = tasks (this s3).
Proof. cbv zeta. split_and!; vm_compute; reflexivity. Qed.

(** Where the write fails, [addTask] still returns [true] and keeps the
    new task in memory; nothing is persisted. *)
Example failed_write_keeps_the_task :
  let r := addTask (js "Buy milk") (Scenario.state [] "all" Scenario.full_browser) in
  fst r = Normal true
  /\ map TaskModel.text (tasks (this (snd r))) = [VStr (js "Buy milk")]
  /\ localStorage (world (snd r)) !! js "tasks" = None
  /\ setItem_calls (world (snd r)) = 1%nat.
Proof. cbv zeta. split_and!; vm_compute; reflexivity. Qed.

(** ** Instances of the further properties *)

(** Three tasks, the last two with the id 2: the first of the two is
    toggled. *)
Lemma toggleTask_flips_first_witness :
  let t1 := Scenario.task 1 "a" false 0 in
  let t2 := Scenario.task 2 "b" true 0 in
  let t3 := Scenario.task 2 "c" false 0 in
  let s := Scenario.state [t1; t2; t3] "all" (Scenario.browser None) in
  tasks (this s) !! 1%nat = Some t2
  /\ has_id (num_of_Z 2) t2 = true
  /\ fst (toggleTask (num_of_Z 2) s) = Normal true
  /\ tasks (this (snd (toggleTask (num_of_Z 2) s))) !! 1%nat = Some (toggled t2)
  /\ tasks (this (snd (toggleTask (num_of_Z 2) s))) !! 2%nat = Some t3.
Proof.
  cbv zeta.
  destruct (toggleTask_flips_first (num_of_Z 2)
              (Scenario.state [Scenario.task 1 "a" false 0; Scenario.task 2 "b" true 0;
                               Scenario.task 2 "c" false 0] "all" (Scenario.browser None))
              1 (Scenario.task 2 "b" true 0))
    as (Hret & Hat & _ & Hother & _).
  - reflexivity.
  - reflexivity.
  - intros j u Hj Hlt. destruct j as [|j]; [|lia]. injection Hj as <-. reflexivity.
  - split_and!; [reflexivity | reflexivity | exact Hret | exact Hat |].
    rewrite Hother by lia. reflexivity.
Defined.

(** The same store: the completed count falls from 1 to 0. *)
Lemma toggleTask_moves_one_witness :
  let t1 := Scenario.task 1 "a" false 0 in
  let t2 := Scenario.task 2 "b" true 0 in
  let t3 := Scenario.task 2 "c" false 0 in
  let s := Scenario.state [t1; t2; t3] "all" (Scenario.browser None) in
  exists before after,
    fst (getStats s) = Normal before
    /\ fst (getStats (snd (toggleTask (num_of_Z 2) s))) = Normal after
    /\ total after = total before
    /\ (completed after + 1 = completed before + 0)%nat
    /\ (active after + 0 = active before + 1)%nat.
Proof.
  cbv zeta.
  apply (toggleTask_moves_one (num_of_Z 2)
           (Scenario.state [Scenario.task 1 "a" false 0; Scenario.task 2 "b" true 0;
                            Scenario.task 2 "c" false 0] "all" (Scenario.browser None))
           1 (Scenario.task 2 "b" true 0)).
  - reflexivity.
  - reflexivity.
  - intros j u Hj Hlt. destruct j as [|j]; [|lia]. injection Hj as <-. reflexivity.
Defined.

(** A task added to a store of one completed task. *)
Lemma addTask_counts_witness :
  let s := Scenario.state [Scenario.task 1 "a" true 0] "completed" (Scenario.browser None) in
  trim (js " Call home ") = js "Call home"
  /\ exists before after,
       fst (getStats s) = Normal before
       /\ fst (getStats (snd (addTask (js " Call home ") s))) = Normal after
       /\ total after = S (total before)
       /\ active after = S (active before)
       /\ completed after = completed before
       /\ currentFilter (this (snd (addTask (js " Call home ") s))) = currentFilter (this s).
Proof.
  cbv zeta. split; [vm_compute; reflexivity|].
  apply addTask_counts. vm_compute. discriminate.
Defined.

(** The clock shows 1700000000000; a task with that id is stored already
    and goes with the new one. *)
Lemma addTask_deleteTask_witness :
  let t1 := Scenario.task 1 "a" false 0 in
  let t2 := Scenario.task 1700000000000 "b" false 0 in
  let s := Scenario.state [t1; t2] "all" (Scenario.browser None) in
  let s' := snd (deleteTask (num_of_Z 1700000000000) (snd (addTask (js "Buy milk") s))) in
  trim (js "Buy milk") = js "Buy milk"
  /\ tasks (this s') = [t1].
Proof.
  cbv zeta. split; [vm_compute; reflexivity|].
  destruct (addTask_deleteTask (js "Buy milk")
              (Scenario.state [Scenario.task 1 "a" false 0;
                               Scenario.task 1700000000000 "b" false 0]
                 "all" (Scenario.browser None))) as [Hdel _].
  - vm_compute. discriminate.
  - cbv zeta in Hdel.
    change (clock _ _) with 1700000000000 in Hdel.
    rewrite Hdel. vm_compute. reflexivity.
Defined.

(** The store loaded from the blob ["[1]"] holds a task without a date. *)
Lemma invalid_date_stops_saving_witness :
  let undated := {| TaskModel.id := VUndef; TaskModel.text := VUndef;
                    TaskModel.completed := VBool false; TaskModel.createdAt := VDate None |} in
  let s := snd (TaskViewModel.new (Scenario.browser (Some (js "[1]")))) in
  tasks (this s) = [undated]
  /\ saveTasks s = (Normal tt, s)
  /\ localStorage (world (snd (addTask (js "Buy milk") s))) !! js "tasks" = Some (js "[1]")
  /\ length (tasks (this (snd (addTask (js "Buy milk") s)))) = 2%nat.
Proof.
  cbv zeta.
  assert (Hts : tasks (this (snd (TaskViewModel.new (Scenario.browser (Some (js "[1]"))))))
                = [{| TaskModel.id := VUndef; TaskModel.text := VUndef;
                      TaskModel.completed := VBool false;
                      TaskModel.createdAt := VDate None |}])
    by (vm_compute; reflexivity).
  destruct (invalid_date_stops_saving (js "Buy milk") VUndef
              (snd (TaskViewModel.new (Scenario.browser (Some (js "[1]"))))))
    as (Hsave & Hstore & _).
  - rewrite Hts. apply Exists_cons_hd. intros [ms Hms]. discriminate.
  - split_and!; [exact Hts | exact Hsave | rewrite Hstore; vm_compute; reflexivity
                | vm_compute; reflexivity].
Defined.

(** A browser whose storage takes nothing. *)
Lemma addTask_without_room_witness :
  let s := Scenario.state [] "all" Scenario.full_browser in
  trim (js "Buy milk") = js "Buy milk"
  /\ quota (world s) = 0%N
  /\ fst (addTask (js "Buy milk") s) = Normal true
  /\ length (tasks (this (snd (addTask (js "Buy milk") s)))) = 1%nat
  /\ localStorage (world (snd (addTask (js "Buy milk") s))) = localStorage (world s).
Proof.
  cbv zeta. split; [vm_compute; reflexivity|]. split; [reflexivity|].
  apply (addTask_without_room (js "Buy milk") (Scenario.state [] "all" Scenario.full_browser)).
  - vm_compute. discriminate.
  - reflexivity.
Defined.

(** Two tasks, one completed, one with a quote, a backslash and a line
    feed in its text, saved and loaded by the reference engine. *)
Lemma saved_tasks_come_back_witness :
  let t1 := Scenario.task 1700000000000 "Buy milk" true 1700000000123 in
  let t2 := {| TaskModel.id := num_of_Z 5;
               TaskModel.text := VStr (js "Call " ++ [0x22; 0x5C; 0x0A; 0x41]%N);
               TaskModel.completed := VBool false;
               TaskModel.createdAt := VDate (Some 0) |} in
  let s := Scenario.state [t1; t2] "all" (Scenario.browser None) in
  JSON_parse (JSON_stringify (VArr (map Stored.record [t1; t2])))
  = Some (VArr (map Stored.record [t1; t2]))
  /\ fst (TaskViewModel.new (world (snd (saveTasks s)))) = Normal tt
  /\ tasks (this (snd (TaskViewModel.new (world (snd (saveTasks s)))))) = [t1; t2].
Proof.
  cbv zeta.
  match goal with |- ?P /\ _ => assert (Hparse : P) by (vm_compute; reflexivity) end.
  split; [exact Hparse|].
  apply (saved_tasks_come_back
           (Scenario.state
              [Scenario.task 1700000000000 "Buy milk" true 1700000000123;
               {| TaskModel.id := num_of_Z 5;
                  TaskModel.text := VStr (js "Call " ++ [0x22; 0x5C; 0x0A; 0x41]%N);
                  TaskModel.completed := VBool false;
                  TaskModel.createdAt := VDate (Some 0) |}]
              "all" (Scenario.browser None))).
  - constructor; [|constructor; [|constructor]];
      (split; [discriminate | eexists; split; [reflexivity | vm_compute; discriminate]]).
  - vm_compute. discriminate.
  - vm_compute. discriminate.
  - exact Hparse.
Defined.

(** An array of a number and of a record without id and date, whose flag is
    the number 1: both are taken.  With a third record whose [createdAt] is
    an object with a property [toString], nothing is. *)
Lemma loadTasks_takes_every_record_witness :
  let blob := Scenario.json_text "[1,{'text':'a','completed':1}]" in
  let bad := Scenario.json_text "[1,{'text':'a','completed':1},{'createdAt':{'toString':1}}]" in
  let s b := Scenario.state [Scenario.task 1 "old" false 0] "active"
               (Scenario.browser (Some b)) in
  JSON_parse blob
  = Some (VArr [VNum (Dec 1 0);
                VObj [(js "text", VStr (js "a")); (js "completed", VNum (Dec 1 0))]])
  /\ fst (loadTasks (s blob)) = Normal tt
  /\ tasks (this (snd (loadTasks (s blob))))
     = [ {| TaskModel.id := VUndef; TaskModel.text := VUndef;
            TaskModel.completed := VBool false; TaskModel.createdAt := VDate None |};
         {| TaskModel.id := VUndef; TaskModel.text := VStr (js "a");
            TaskModel.completed := VNum (Dec 1 0); TaskModel.createdAt := VDate None |} ]
  /\ world (snd (loadTasks (s blob))) = world (s blob)
  /\ JSON_parse bad
     = Some (VArr [VNum (Dec 1 0);
                   VObj [(js "text", VStr (js "a")); (js "completed", VNum (Dec 1 0))];
                   VObj [(js "createdAt", VObj [(js "toString", VNum (Dec 1 0))])]])
  /\ fst (loadTasks (s bad)) = Normal tt
  /\ tasks (this (snd (loadTasks (s bad)))) = [].
Proof.
  cbv zeta.
  match goal with |- ?P /\ _ /\ _ /\ _ /\ ?Q /\ _ =>
    assert (Hparse : P) by (vm_compute; reflexivity);
    assert (Hbad : Q) by (vm_compute; reflexivity)
  end.
  split; [exact Hparse|].
  destruct (loadTasks_takes_every_record
              (Scenario.state [Scenario.task 1 "old" false 0] "active"
                 (Scenario.browser
                    (Some (Scenario.json_text "[1,{'text':'a','completed':1}]"))))
              (Scenario.json_text "[1,{'text':'a','completed':1}]")
              [VNum (Dec 1 0);
               VObj [(js "text", VStr (js "a")); (js "completed", VNum (Dec 1 0))]])
    as (Hret & Hts & _ & _ & Hw);
    [vm_compute; reflexivity | vm_compute; discriminate | exact Hparse |].
  destruct (loadTasks_takes_every_record
              (Scenario.state [Scenario.task 1 "old" false 0] "active"
                 (Scenario.browser
                    (Some (Scenario.json_text
                       "[1,{'text':'a','completed':1},{'createdAt':{'toString':1}}]"))))
              (Scenario.json_text
                 "[1,{'text':'a','completed':1},{'createdAt':{'toString':1}}]")
              [VNum (Dec 1 0);
               VObj [(js "text", VStr (js "a")); (js "completed", VNum (Dec 1 0))];
               VObj [(js "createdAt", VObj [(js "toString", VNum (Dec 1 0))])]])
    as (Hret' & Hts' & _);
    [vm_compute; reflexivity | vm_compute; discriminate | exact Hbad |].
  split_and!; [exact Hret | rewrite Hts; vm_compute; reflexivity | exact Hw
              | exact Hbad | exact Hret' | rewrite Hts'; vm_compute; reflexivity].
Defined.

(** A store created over the blob ["[1]"], then a task added and the
    loaded one toggled. *)
Lemma tasks_keep_their_shape_witness :
  let s := Spec.run (Spec.ToggleTask VUndef)
             (Spec.run (Spec.AddTask (js "Buy milk"))
                (snd (TaskViewModel.new (Scenario.browser (Some (js "[1]")))))) in
  Spec.reachable (fun _ => True) s /\ Forall Stored.shaped (tasks (this s)).
Proof.
  cbv zeta.
  match goal with |- ?R /\ _ => assert (Hreach : R) end.
  { apply Spec.reach_call; [|discriminate].
    apply Spec.reach_call; [|discriminate].
    apply Spec.reach_new. exact I. }
  split; [exact Hreach|]. apply tasks_keep_their_shape. exact Hreach.
Defined.

(** A date two hours and a second before the clock's time. *)
Lemma formatTime_by_age_witness :
  let w := Scenario.browser None in
  Z.abs (clock w (clock_reads w)) <= maxTime
  /\ Z.abs (1700000000000 - 7201000) <= maxTime
  /\ fst (TaskView.formatTime (Some (1700000000000 - 7201000)) w) = Normal (js "vor 2h")
  /\ fst (TaskView.formatTime (Some (1700000000000 - 90000)) w) = Normal (js "vor 1min")
  /\ fst (TaskView.formatTime (Some (1700000000000 + 5)) w) = Normal (js "Gerade eben").
Proof.
  cbv zeta.
  assert (Hnow : Z.abs (clock (Scenario.browser None) (clock_reads (Scenario.browser None)))
                 <= maxTime) by (vm_compute; discriminate).
  split; [exact Hnow|]. split; [vm_compute; discriminate|].
  split_and!.
  - destruct (formatTime_by_age (1700000000000 - 7201000) (Scenario.browser None) Hnow)
      as (_ & _ & _ & Hh & _); [vm_compute; discriminate|].
    destruct Hh as [-> _]; [vm_compute; split; [discriminate | reflexivity]|].
    vm_compute. reflexivity.
  - destruct (formatTime_by_age (1700000000000 - 90000) (Scenario.browser None) Hnow)
      as (_ & _ & Hm & _); [vm_compute; discriminate|].
    destruct Hm as [-> _]; [vm_compute; split; [discriminate | reflexivity]|].
    vm_compute. reflexivity.
  - destruct (formatTime_by_age (1700000000000 + 5) (Scenario.browser None) Hnow)
      as (_ & Hs & _); [vm_compute; discriminate|].
    apply Hs. vm_compute. reflexivity.
Defined.
